(** * MelaScalp triage engine: a shallow embedding of [triage_engine.py]

    The rule-based classifier of [MelaScalpTriageEngine] is embedded
    function by function.  Python [str] values are [string]s of ASCII
    characters, Python [int]s are [Z], the class-level fact sets are
    [gset string], the token collections of a [TriageInput] are lists (as in
    the dataclass), and the one floating-point computation of the engine
    ([_calculate_confidence]) is kept on IEEE 754 binary64 numbers. *)

From Stdlib Require Import ZArith QArith Lqa Floats Uint63 Ascii String.
From stdpp Require Import base option list sets gmap strings.

Local Open Scope string_scope.
Local Open Scope Z_scope.

(** ** Enumerations and records *)

(** [class ConditionLabel(str, Enum)] *)
Inductive ConditionLabel : Set :=
  | SEBORRHEIC_DERMATITIS
  | FOLLICULITIS
  | PSORIASIS
  | SCALP_ACNE
  | TENSION_DAMAGE
  | PRODUCT_BUILDUP
  | DRY_SCALP
  | CONTACT_DERMATITIS
  | UNCLEAR.

(** The [.value] of a member of [ConditionLabel]. *)
Definition ConditionLabel_value (l : ConditionLabel) : string :=
  match l with
  | SEBORRHEIC_DERMATITIS => "seborrheic_dermatitis"
  | FOLLICULITIS => "folliculitis"
  | PSORIASIS => "psoriasis"
  | SCALP_ACNE => "scalp_acne"
  | TENSION_DAMAGE => "tension_damage"
  | PRODUCT_BUILDUP => "product_buildup"
  | DRY_SCALP => "dry_scalp"
  | CONTACT_DERMATITIS => "contact_dermatitis"
  | UNCLEAR => "unclear"
  end.

(** [class ConfidenceLevel(str, Enum)] *)
Inductive ConfidenceLevel : Set := LOW | MODERATE | HIGH.

Definition ConfidenceLevel_value (c : ConfidenceLevel) : string :=
  match c with
  | LOW => "low"
  | MODERATE => "moderate"
  | HIGH => "high"
  end.

(** [@dataclass class TriageInput] *)
Record TriageInput : Set := {
  symptoms : list string;
  style_type : string;
  wash_frequency : string;
  product_use : list string;
  known_issues : list string;
  image_uploaded : bool
}.

(** [@dataclass class TriageResult]; the dictionary built by
    [_format_output] has exactly these six keys and is modelled by the same
    record. *)
Record TriageResult : Set := {
  condition_label : string;
  care_plan_id : string;
  referral_required : bool;
  confidence_level : string;
  reasoning : string;
  severity_score : Z
}.

(** The [input_data: Dict] handed to [classify], for well-typed requests:
    every key is optional ([None] is an absent key), sequences hold strings. *)
Record InputDict : Set := {
  get_symptoms : option (list string);
  get_style_type : option string;
  get_wash_frequency : option string;
  get_product_use : option (list string);
  get_known_issues : option (list string);
  get_image_uploaded : option bool
}.

(** ** Class-level tables of [MelaScalpTriageEngine] *)

Definition CARE_PLANS (l : ConditionLabel) : string :=
  match l with
  | SEBORRHEIC_DERMATITIS => "CP-001"
  | FOLLICULITIS => "CP-002"
  | PSORIASIS => "CP-003"
  | SCALP_ACNE => "CP-004"
  | TENSION_DAMAGE => "CP-005"
  | PRODUCT_BUILDUP => "CP-006"
  | DRY_SCALP => "CP-006"
  | CONTACT_DERMATITIS => "CP-007"
  | UNCLEAR => "CP-999"
  end.

Definition PROTECTIVE_STYLES : gset string :=
  {[ "braids"; "cornrows"; "weave"; "extensions"; "locs";
     "twists"; "faux_locs"; "crochet"; "tight_ponytail" ]}.

Definition LOW_WASH_FREQUENCIES : gset string :=
  {[ "biweekly"; "monthly"; "less_than_monthly" ]}.

Definition HEAVY_PRODUCTS : gset string :=
  {[ "edge_control"; "pomade"; "grease"; "gel"; "wax" ]}.

(** ** Python primitives used by the engine *)

(** [s.lower()] on ASCII text. *)
Definition lower_char (c : ascii) : ascii :=
  let n := nat_of_ascii c in
  if ((65 <=? n) && (n <=? 90))%nat then ascii_of_nat (n + 32) else c.

Fixpoint str_lower (s : string) : string :=
  match s with
  | EmptyString => EmptyString
  | String c t => String (lower_char c) (str_lower t)
  end.

(** The ASCII characters [str.strip()] removes: tab, line feed, vertical
    tab, form feed, carriage return, the four separators 0x1c-0x1f, space. *)
Definition is_space (c : ascii) : bool :=
  let n := nat_of_ascii c in
  (((9 <=? n) && (n <=? 13)) || ((28 <=? n) && (n <=? 32)))%nat.

Fixpoint lstrip_chars (l : list ascii) : list ascii :=
  match l with
  | [] => []
  | c :: t => if is_space c then lstrip_chars t else l
  end.

(** [s.strip()] *)
Definition str_strip (s : string) : string :=
  string_of_list_ascii
    (rev (lstrip_chars (rev (lstrip_chars (list_ascii_of_string s))))).

(** [needle in haystack] on two strings (substring test). *)
Fixpoint str_contains (needle haystack : string) : bool :=
  String.prefix needle haystack ||
  match haystack with
  | EmptyString => false
  | String _ t => str_contains needle t
  end.

(** [any(s in collection for s in tokens)] *)
Definition any_in (tokens collection : list string) : bool :=
  existsb (λ s, bool_decide (s ∈ collection)) tokens.

(** [len(l)] *)
Definition len {A : Type} (l : list A) : Z := Z.of_nat (length l).

(** [bool(set(items) & fact_set)] *)
Definition intersects (items : list string) (fact_set : gset string) : bool :=
  bool_decide ((list_to_set items : gset string) ∩ fact_set ≠ ∅).

(** ** [_calculate_confidence] *)

(** Conversion of a (small, non-negative) Python [int] to [float]. *)
Definition to_float (n : Z) : float := PrimFloat.of_uint63 (Uint63.of_Z n).

Definition _calculate_confidence (score max_score : Z) : string :=
  let percentage :=
    PrimFloat.mul (PrimFloat.div (to_float score) (to_float max_score))
                  (to_float 100) in
  if PrimFloat.leb (to_float 70) percentage then ConfidenceLevel_value HIGH
  else if PrimFloat.leb (to_float 40) percentage then ConfidenceLevel_value MODERATE
  else ConfidenceLevel_value LOW.

(** ** [_parse_input] *)

Definition normalize (s : string) : string := str_strip (str_lower s).

Definition _parse_input (data : InputDict) : TriageInput :=
  {| symptoms := map normalize (default [] (get_symptoms data));
     style_type := normalize (default EmptyString (get_style_type data));
     wash_frequency := normalize (default EmptyString (get_wash_frequency data));
     product_use := map normalize (default [] (get_product_use data));
     known_issues := map normalize (default [] (get_known_issues data));
     image_uploaded := default false (get_image_uploaded data) |}.

(** ** Condition-specific rules

    Every [_check_*] method first accumulates its local variable [score]
    and then compares it with a threshold.  The accumulation is the
    function [*_score] below, written with the source's sequence of
    conditional increments; the indicator variables keep their names. *)

(** [if cond: score += weight] *)
Definition bump (cond : bool) (weight score : Z) : Z :=
  if cond then score + weight else score.

(** *** PRIORITY 1: folliculitis *)

Definition folliculitis_has_bumps (data : TriageInput) : bool :=
  any_in ["bumps"; "pustules"; "pimples"; "small_bumps"; "infected_bumps"]
         (symptoms data).

Definition folliculitis_has_pain (data : TriageInput) : bool :=
  any_in ["pain"; "painful"; "tenderness"; "tender"; "sore"; "soreness"]
         (symptoms data).

Definition has_protective_style (data : TriageInput) : bool :=
  bool_decide (style_type data ∈ PROTECTIVE_STYLES).

Definition folliculitis_has_inflammation (data : TriageInput) : bool :=
  any_in ["redness"; "swelling"; "hot"; "warm"; "inflamed"] (symptoms data).

Definition folliculitis_score (data : TriageInput) : Z :=
  let score := 0 in
  let score := bump (folliculitis_has_bumps data) 3 score in
  let score := bump (folliculitis_has_pain data) 3 score in
  let score := bump (has_protective_style data) 2 score in
  let score := bump (folliculitis_has_inflammation data) 2 score in
  score.

Definition _check_folliculitis (data : TriageInput) : option TriageResult :=
  let score := folliculitis_score data in
  if 5 <=? score then
    let confidence := _calculate_confidence score 10 in
    let reasoning :=
      "Bumps and pain with " +:+ style_type data +:+
      " styling suggest folliculitis. " +:+
      "This requires professional evaluation to prevent scarring." in
    Some {| condition_label := ConditionLabel_value FOLLICULITIS;
            care_plan_id := CARE_PLANS FOLLICULITIS;
            referral_required := true;
            confidence_level := confidence;
            reasoning := reasoning;
            severity_score := 8 |}
  else None.

(** *** PRIORITY 2: psoriasis *)

Definition psoriasis_has_scales (data : TriageInput) : bool :=
  any_in ["scales"; "scaling"; "thick_scales"; "silvery_scales";
          "scale_patches"; "plaques"] (symptoms data).

Definition psoriasis_has_dryness (data : TriageInput) : bool :=
  any_in ["dryness"; "dry"; "very_dry"; "cracking"] (symptoms data).

Definition known_psoriasis (data : TriageInput) : bool :=
  bool_decide ("psoriasis" ∈ known_issues data).

Definition psoriasis_has_itching (data : TriageInput) : bool :=
  any_in ["itching"; "itchy"; "irritation"] (symptoms data).

Definition psoriasis_score (data : TriageInput) : Z :=
  let score := 0 in
  let score := bump (known_psoriasis data) 5 score in
  let score := bump (psoriasis_has_scales data) 4 score in
  let score := bump (psoriasis_has_dryness data) 2 score in
  let score := bump (psoriasis_has_itching data) 1 score in
  score.

Definition _check_psoriasis (data : TriageInput) : option TriageResult :=
  let score := psoriasis_score data in
  if 5 <=? score then
    let confidence := _calculate_confidence score 12 in
    let reasoning :=
      if known_psoriasis data then
        "Known psoriasis history with matching symptoms requires dermatologist management."
      else
        "Thick scaling and dryness patterns suggest psoriasis. Professional diagnosis recommended." in
    Some {| condition_label := ConditionLabel_value PSORIASIS;
            care_plan_id := CARE_PLANS PSORIASIS;
            referral_required := true;
            confidence_level := confidence;
            reasoning := reasoning;
            severity_score := 7 |}
  else None.

(** *** PRIORITY 3: tension damage *)

Definition tension_has_tenderness (data : TriageInput) : bool :=
  any_in ["tenderness"; "tender"; "sore"; "soreness"; "pain"; "painful"]
         (symptoms data).

Definition tension_has_hair_loss (data : TriageInput) : bool :=
  any_in ["hair_loss"; "thinning"; "bald_spots"; "edges_thinning"; "breakage"]
         (symptoms data).

Definition tension_has_bumps (data : TriageInput) : bool :=
  any_in ["bumps"; "pustules"; "pimples"] (symptoms data).

Definition tension_score (data : TriageInput) : Z :=
  let score := 0 in
  let score :=
    bump (tension_has_tenderness data && has_protective_style data) 5 score in
  let score := bump (tension_has_hair_loss data) 4 score in
  let score :=
    bump (tension_has_tenderness data && negb (tension_has_bumps data)) 2 score in
  score.

Definition _check_tension_damage (data : TriageInput) : option TriageResult :=
  let score := tension_score data in
  if (5 <=? score) && negb (tension_has_bumps data) then
    let confidence := _calculate_confidence score 11 in
    let reasoning :=
      "Scalp tenderness with " +:+ style_type data +:+
      " suggests tension damage. " +:+
      "Consult a professional to prevent traction alopecia." in
    Some {| condition_label := ConditionLabel_value TENSION_DAMAGE;
            care_plan_id := CARE_PLANS TENSION_DAMAGE;
            referral_required := true;
            confidence_level := confidence;
            reasoning := reasoning;
            severity_score := 7 |}
  else None.

(** *** PRIORITY 4: seborrheic dermatitis *)

Definition seborrheic_has_itching (data : TriageInput) : bool :=
  any_in ["itching"; "itchy"; "irritation"; "scratchy"] (symptoms data).

Definition seborrheic_has_flaking (data : TriageInput) : bool :=
  any_in ["flaking"; "flakes"; "dandruff"; "white_flakes"; "yellow_flakes"]
         (symptoms data).

Definition seborrheic_has_oily (data : TriageInput) : bool :=
  any_in ["oily"; "greasy"; "oily_flakes"] (symptoms data).

Definition seborrheic_has_redness (data : TriageInput) : bool :=
  bool_decide ("redness" ∈ symptoms data) || bool_decide ("red" ∈ symptoms data).

Definition seborrheic_score (data : TriageInput) : Z :=
  let score := 0 in
  let score :=
    if seborrheic_has_itching data && seborrheic_has_flaking data then score + 5
    else if seborrheic_has_itching data || seborrheic_has_flaking data then score + 2
    else score in
  let score := bump (seborrheic_has_oily data) 2 score in
  let score := bump (seborrheic_has_redness data) 1 score in
  score.

Definition seborrheic_needs_referral (data : TriageInput) : bool :=
  any_in ["severe"; "worsening"; "bleeding"; "crusting"] (symptoms data)
  || bool_decide ("eczema" ∈ known_issues data).

Definition _check_seborrheic_dermatitis (data : TriageInput)
  : option TriageResult :=
  let score := seborrheic_score data in
  if 4 <=? score then
    let confidence := _calculate_confidence score 10 in
    let reasoning :=
      "Itching and flaking are classic signs of seborrheic dermatitis. " +:+
      "Often manageable with medicated shampoos." in
    let needs_referral := seborrheic_needs_referral data in
    Some {| condition_label := ConditionLabel_value SEBORRHEIC_DERMATITIS;
            care_plan_id := CARE_PLANS SEBORRHEIC_DERMATITIS;
            referral_required := needs_referral;
            confidence_level := confidence;
            reasoning := reasoning;
            severity_score := if negb needs_referral then 4 else 6 |}
  else None.

(** *** PRIORITY 5: contact dermatitis *)

Definition contact_has_itching (data : TriageInput) : bool :=
  any_in ["itching"; "itchy"; "burning"] (symptoms data).

Definition contact_has_redness (data : TriageInput) : bool :=
  any_in ["redness"; "red"; "inflamed"] (symptoms data).

Definition contact_has_bumps (data : TriageInput) : bool :=
  any_in ["bumps"; "rash"; "hives"] (symptoms data).

Definition uses_heavy_products (data : TriageInput) : bool :=
  intersects (product_use data) HEAVY_PRODUCTS.

Definition recent_change (data : TriageInput) : bool :=
  any_in ["new_product"; "recent_reaction"; "sudden_onset"] (symptoms data).

Definition contact_score (data : TriageInput) : Z :=
  let score := 0 in
  let score :=
    bump (contact_has_itching data && contact_has_redness data) 3 score in
  let score :=
    bump (contact_has_bumps data
          && negb (any_in ["pustules"; "pus"] (symptoms data))) 2 score in
  let score := bump (uses_heavy_products data || recent_change data) 2 score in
  score.

Definition _check_contact_dermatitis (data : TriageInput)
  : option TriageResult :=
  let score := contact_score data in
  if 4 <=? score then
    let confidence := _calculate_confidence score 7 in
    let reasoning :=
      "Symptoms suggest possible contact dermatitis from hair products. " +:+
      "Consider eliminating products one at a time." in
    Some {| condition_label := ConditionLabel_value CONTACT_DERMATITIS;
            care_plan_id := CARE_PLANS CONTACT_DERMATITIS;
            referral_required := false;
            confidence_level := confidence;
            reasoning := reasoning;
            severity_score := 4 |}
  else None.

(** *** PRIORITY 6: scalp acne *)

Definition acne_has_bumps (data : TriageInput) : bool :=
  any_in ["bumps"; "pimples"; "small_bumps"] (symptoms data).

Definition acne_has_oily (data : TriageInput) : bool :=
  any_in ["oily"; "greasy"] (symptoms data).

Definition no_pain (data : TriageInput) : bool :=
  negb (any_in ["pain"; "painful"; "tender"; "sore"] (symptoms data)).

Definition not_protective_style (data : TriageInput) : bool :=
  bool_decide (style_type data ∉ PROTECTIVE_STYLES).

Definition acne_score (data : TriageInput) : Z :=
  let score := 0 in
  let score := bump (acne_has_bumps data && no_pain data) 3 score in
  let score := bump (acne_has_oily data) 2 score in
  let score := bump (uses_heavy_products data) 2 score in
  let score := bump (not_protective_style data) 1 score in
  score.

Definition _check_scalp_acne (data : TriageInput) : option TriageResult :=
  let score := acne_score data in
  if 4 <=? score then
    let confidence := _calculate_confidence score 8 in
    let reasoning :=
      "Bumps and product buildup suggest scalp acne. " +:+
      "Try clarifying shampoo and reducing heavy products." in
    Some {| condition_label := ConditionLabel_value SCALP_ACNE;
            care_plan_id := CARE_PLANS SCALP_ACNE;
            referral_required := false;
            confidence_level := confidence;
            reasoning := reasoning;
            severity_score := 3 |}
  else None.

(** *** PRIORITY 7: product buildup *)

Definition buildup_has_flaking (data : TriageInput) : bool :=
  any_in ["flaking"; "flakes"; "buildup"] (symptoms data).

Definition low_wash (data : TriageInput) : bool :=
  bool_decide (wash_frequency data ∈ LOW_WASH_FREQUENCIES).

Definition buildup_has_itching (data : TriageInput) : bool :=
  bool_decide ("itching" ∈ symptoms data) || bool_decide ("itchy" ∈ symptoms data).

Definition multiple_products (data : TriageInput) : bool :=
  3 <=? len (product_use data).

Definition buildup_score (data : TriageInput) : Z :=
  let score := 0 in
  let score :=
    bump (buildup_has_flaking data && negb (buildup_has_itching data)) 3 score in
  let score := bump (uses_heavy_products data && low_wash data) 3 score in
  let score := bump (multiple_products data) 1 score in
  score.

Definition _check_product_buildup (data : TriageInput) : option TriageResult :=
  let score := buildup_score data in
  if 4 <=? score then
    let confidence := _calculate_confidence score 7 in
    let reasoning :=
      "Product buildup from styling products. " +:+
      "Consider clarifying treatments and adjusting wash routine." in
    Some {| condition_label := ConditionLabel_value PRODUCT_BUILDUP;
            care_plan_id := CARE_PLANS PRODUCT_BUILDUP;
            referral_required := false;
            confidence_level := confidence;
            reasoning := reasoning;
            severity_score := 2 |}
  else None.

(** *** PRIORITY 8: dry scalp *)

Definition dry_has_dryness (data : TriageInput) : bool :=
  any_in ["dryness"; "dry"; "tight"; "flaking"] (symptoms data).

Definition minimal_symptoms (data : TriageInput) : bool :=
  len (symptoms data) <=? 2.

(** [any("oil" in p for p in data.product_use)] *)
Definition uses_oil (data : TriageInput) : bool :=
  existsb (str_contains "oil") (product_use data).

Definition dry_score (data : TriageInput) : Z :=
  let score := 0 in
  let score := bump (dry_has_dryness data) 3 score in
  let score := bump (low_wash data && negb (uses_oil data)) 2 score in
  let score := bump (minimal_symptoms data) 1 score in
  score.

Definition _check_dry_scalp (data : TriageInput) : option TriageResult :=
  let score := dry_score data in
  if 3 <=? score then
    let confidence := ConfidenceLevel_value MODERATE in
    let reasoning :=
      "Dry scalp symptoms. Increase moisture with oils and gentle cleansing." in
    Some {| condition_label := ConditionLabel_value DRY_SCALP;
            care_plan_id := CARE_PLANS DRY_SCALP;
            referral_required := false;
            confidence_level := confidence;
            reasoning := reasoning;
            severity_score := 2 |}
  else None.

(** *** Fallback *)

Definition unclear_reasoning : string :=
  "Symptoms don't clearly match a single condition. " +:+
  "Professional evaluation recommended for accurate diagnosis.".

Definition _create_unclear_result (data : TriageInput) : TriageResult :=
  {| condition_label := ConditionLabel_value UNCLEAR;
     care_plan_id := CARE_PLANS UNCLEAR;
     referral_required := true;
     confidence_level := ConfidenceLevel_value LOW;
     reasoning := unclear_reasoning;
     severity_score := 5 |}.

(** ** The rule chain *)

(** [self.rule_chain], as set up by [__init__]. *)
Definition rule_chain : list (TriageInput → option TriageResult) :=
  [ _check_folliculitis;
    _check_psoriasis;
    _check_tension_damage;
    _check_seborrheic_dermatitis;
    _check_contact_dermatitis;
    _check_scalp_acne;
    _check_product_buildup;
    _check_dry_scalp ].

(** The [for rule_func in ...] loop of [_run_decision_tree]: the first
    result that is not [None] (a dataclass instance is always truthy). *)
Fixpoint first_match (chain : list (TriageInput → option TriageResult))
    (input_data : TriageInput) : option TriageResult :=
  match chain with
  | [] => None
  | rule_func :: rest =>
      match rule_func input_data with
      | Some result => Some result
      | None => first_match rest input_data
      end
  end.

Definition _run_decision_tree (input_data : TriageInput) : TriageResult :=
  match first_match rule_chain input_data with
  | Some result => result
  | None => _create_unclear_result input_data
  end.

(** ** Referral override *)

Definition severe_symptoms (data : TriageInput) : bool :=
  any_in ["bleeding"; "pus"; "oozing"; "crusting"; "severe";
          "worsening"; "spreading"; "fever"] (symptoms data).

Definition hair_loss_with_pain (data : TriageInput) : bool :=
  any_in ["hair_loss"; "bald_spots"] (symptoms data)
  && any_in ["pain"; "tenderness"] (symptoms data).

Definition known_chronic_condition (data : TriageInput) : bool :=
  any_in ["psoriasis"; "eczema"; "lupus"; "autoimmune"] (known_issues data).

Definition urgent_notice : string :=
  " URGENT: Severe symptoms require immediate professional evaluation.".

Definition monitoring_notice : string :=
  " Note: Known condition warrants professional monitoring.".

(** The two in-place updates of [result] are two functional updates. *)
Definition _apply_referral_rules (result : TriageResult) (data : TriageInput)
  : TriageResult :=
  let result :=
    if severe_symptoms data || hair_loss_with_pain data then
      {| condition_label := condition_label result;
         care_plan_id := care_plan_id result;
         referral_required := true;
         confidence_level := confidence_level result;
         reasoning := reasoning result +:+ urgent_notice;
         severity_score := Z.max (severity_score result) 8 |}
    else result in
  let result :=
    if known_chronic_condition data && negb (referral_required result) then
      {| condition_label := condition_label result;
         care_plan_id := care_plan_id result;
         referral_required := true;
         confidence_level := confidence_level result;
         reasoning := reasoning result +:+ monitoring_notice;
         severity_score := severity_score result |}
    else result in
  result.

Definition _format_output (result : TriageResult) : TriageResult :=
  {| condition_label := condition_label result;
     care_plan_id := care_plan_id result;
     referral_required := referral_required result;
     confidence_level := confidence_level result;
     reasoning := reasoning result;
     severity_score := severity_score result |}.

(** ** [classify] *)

Definition classify (input_data : InputDict) : TriageResult :=
  let triage_input := _parse_input input_data in
  let result := _run_decision_tree triage_input in
  let result := _apply_referral_rules result triage_input in
  _format_output result.

(** [classify_symptoms]: a fresh engine, then [classify]. *)
Definition classify_symptoms (input_data : InputDict) : TriageResult :=
  classify input_data.

(** ** Concrete requests *)

Definition request (syms : list string) (style wash : string)
    (products issues : list string) : InputDict :=
  {| get_symptoms := Some syms;
     get_style_type := Some style;
     get_wash_frequency := Some wash;
     get_product_use := Some products;
     get_known_issues := Some issues;
     get_image_uploaded := Some false |}.

(** ** The rule table

    The methods, labels, scores, thresholds and [max_score] arguments of the
    eight rules, in the order of [rule_chain].  [rule_max_score] is [None] for the
    dry-scalp rule, which does not call [_calculate_confidence]. *)

Record RuleSpec : Type := {
  rule_check : TriageInput → option TriageResult;
  rule_label : ConditionLabel;
  rule_score : TriageInput → Z;
  rule_threshold : Z;
  rule_max_score : option Z
}.

Definition rule_specs : list RuleSpec :=
  [ {| rule_check := _check_folliculitis;
       rule_label := FOLLICULITIS; rule_score := folliculitis_score;
       rule_threshold := 5; rule_max_score := Some 10 |};
    {| rule_check := _check_psoriasis;
       rule_label := PSORIASIS; rule_score := psoriasis_score;
       rule_threshold := 5; rule_max_score := Some 12 |};
    {| rule_check := _check_tension_damage;
       rule_label := TENSION_DAMAGE; rule_score := tension_score;
       rule_threshold := 5; rule_max_score := Some 11 |};
    {| rule_check := _check_seborrheic_dermatitis;
       rule_label := SEBORRHEIC_DERMATITIS; rule_score := seborrheic_score;
       rule_threshold := 4; rule_max_score := Some 10 |};
    {| rule_check := _check_contact_dermatitis;
       rule_label := CONTACT_DERMATITIS; rule_score := contact_score;
       rule_threshold := 4; rule_max_score := Some 7 |};
    {| rule_check := _check_scalp_acne;
       rule_label := SCALP_ACNE; rule_score := acne_score;
       rule_threshold := 4; rule_max_score := Some 8 |};
    {| rule_check := _check_product_buildup;
       rule_label := PRODUCT_BUILDUP; rule_score := buildup_score;
       rule_threshold := 4; rule_max_score := Some 7 |};
    {| rule_check := _check_dry_scalp;
       rule_label := DRY_SCALP; rule_score := dry_score;
       rule_threshold := 3; rule_max_score := None |} ].

(** A rule's score clears its threshold. *)
Definition clears (data : TriageInput) (sp : RuleSpec) : bool :=
  rule_threshold sp <=? rule_score sp data.

(** The first rule of the table whose score clears its threshold. *)
Definition first_clearing (data : TriageInput) : option RuleSpec :=
  List.find (clears data) rule_specs.

(** The confidence bands in exact arithmetic: the percentage is the
    rational number score / max_score × 100. *)
Definition percentage (score max_score : Z) : Q :=
  (inject_Z score / inject_Z max_score * 100)%Q.

Definition confidence_band (score max_score : Z) : ConfidenceLevel :=
  if Qle_bool 70 (percentage score max_score) then HIGH
  else if Qle_bool 40 (percentage score max_score) then MODERATE
  else LOW.

(** The tokens that some rule or the referral override looks up in
    [symptoms], and those looked up in [known_issues]. *)
Definition symptom_tokens : list string :=
  [ "bumps"; "pustules"; "pimples"; "small_bumps"; "infected_bumps";
    "pain"; "painful"; "tenderness"; "tender"; "sore"; "soreness";
    "redness"; "swelling"; "hot"; "warm"; "inflamed";
    "scales"; "scaling"; "thick_scales"; "silvery_scales"; "scale_patches";
    "plaques"; "dryness"; "dry"; "very_dry"; "cracking";
    "itching"; "itchy"; "irritation"; "scratchy";
    "hair_loss"; "thinning"; "bald_spots"; "edges_thinning"; "breakage";
    "flaking"; "flakes"; "dandruff"; "white_flakes"; "yellow_flakes";
    "oily"; "greasy"; "oily_flakes"; "red";
    "severe"; "worsening"; "bleeding"; "crusting";
    "burning"; "rash"; "hives";
    "new_product"; "recent_reaction"; "sudden_onset"; "pus";
    "buildup"; "tight"; "oozing"; "spreading"; "fever" ].

Definition known_issue_tokens : list string :=
  [ "psoriasis"; "eczema"; "lupus"; "autoimmune" ].

(** A token is recognized when it occurs in an indicator token list or in
    one of the three fact sets. *)
Definition recognized (t : string) : bool :=
  bool_decide (t ∈ symptom_tokens) || bool_decide (t ∈ known_issue_tokens)
  || bool_decide (t ∈ PROTECTIVE_STYLES)
  || bool_decide (t ∈ LOW_WASH_FREQUENCIES)
  || bool_decide (t ∈ HEAVY_PRODUCTS).

(** [{**input_data, "symptoms": syms}] and the same for [product_use]. *)
Definition with_symptoms (data : InputDict) (syms : list string) : InputDict :=
  {| get_symptoms := Some syms;
     get_style_type := get_style_type data;
     get_wash_frequency := get_wash_frequency data;
     get_product_use := get_product_use data;
     get_known_issues := get_known_issues data;
     get_image_uploaded := get_image_uploaded data |}.

Definition with_product_use (data : InputDict) (products : list string)
  : InputDict :=
  {| get_symptoms := get_symptoms data;
     get_style_type := get_style_type data;
     get_wash_frequency := get_wash_frequency data;
     get_product_use := Some products;
     get_known_issues := get_known_issues data;
     get_image_uploaded := get_image_uploaded data |}.

(** What a rule of the table returns when it matches. *)
Definition rule_confidence (sp : RuleSpec) (d : TriageInput) : string :=
  match rule_max_score sp with
  | Some max_score => _calculate_confidence (rule_score sp d) max_score
  | None => ConfidenceLevel_value MODERATE
  end.

Definition matched_by (sp : RuleSpec) (d : TriageInput) (r : TriageResult)
  : Prop :=
  rule_check sp d = Some r
  ∧ condition_label r = ConditionLabel_value (rule_label sp)
  ∧ care_plan_id r = CARE_PLANS (rule_label sp)
  ∧ confidence_level r = rule_confidence sp d.

(** Everything the rules and the override read from a [TriageInput]:
    membership of the known tokens, the two scalar fields, and the three
    tests that look at a collection as a whole. *)
Record same_indicators (d d' : TriageInput) : Prop := {
  agree_symptoms :
    ∀ t, t ∈ symptom_tokens → t ∈ symptoms d ↔ t ∈ symptoms d';
  agree_style : style_type d = style_type d';
  agree_wash : wash_frequency d = wash_frequency d';
  agree_heavy :
    ∀ t, t ∈ HEAVY_PRODUCTS → t ∈ product_use d ↔ t ∈ product_use d';
  agree_known :
    ∀ t, t ∈ known_issue_tokens → t ∈ known_issues d ↔ t ∈ known_issues d';
  agree_oil : uses_oil d = uses_oil d';
  agree_minimal : minimal_symptoms d = minimal_symptoms d';
  agree_multiple : multiple_products d = multiple_products d'
}.

(** ** Further request updates and tables used by the properties *)

(** [{**input_data, "known_issues": issues}] and
    [{**input_data, "image_uploaded": flag}]. *)
Definition with_known_issues (data : InputDict) (issues : list string)
  : InputDict :=
  {| get_symptoms := get_symptoms data;
     get_style_type := get_style_type data;
     get_wash_frequency := get_wash_frequency data;
     get_product_use := get_product_use data;
     get_known_issues := Some issues;
     get_image_uploaded := get_image_uploaded data |}.

Definition with_image_uploaded (data : InputDict) (flag : bool) : InputDict :=
  {| get_symptoms := get_symptoms data;
     get_style_type := get_style_type data;
     get_wash_frequency := get_wash_frequency data;
     get_product_use := get_product_use data;
     get_known_issues := get_known_issues data;
     get_image_uploaded := Some flag |}.

(** The request that carries the fields of a parsed input. *)
Definition to_dict (d : TriageInput) : InputDict :=
  {| get_symptoms := Some (symptoms d);
     get_style_type := Some (style_type d);
     get_wash_frequency := Some (wash_frequency d);
     get_product_use := Some (product_use d);
     get_known_issues := Some (known_issues d);
     get_image_uploaded := Some (image_uploaded d) |}.

(** The [referral_required] and [severity_score] that each rule, and the
    fallback, writes into its result. *)
Definition base_policy (l : ConditionLabel) (d : TriageInput) : bool * Z :=
  match l with
  | FOLLICULITIS => (true, 8)
  | PSORIASIS => (true, 7)
  | TENSION_DAMAGE => (true, 7)
  | SEBORRHEIC_DERMATITIS =>
      (seborrheic_needs_referral d,
       if negb (seborrheic_needs_referral d) then 4 else 6)
  | CONTACT_DERMATITIS => (false, 4)
  | SCALP_ACNE => (false, 3)
  | PRODUCT_BUILDUP => (false, 2)
  | DRY_SCALP => (false, 2)
  | UNCLEAR => (true, 5)
  end.

(** The text the referral override appends to the reasoning. *)
Definition appended_notice (base_referral : bool) (d : TriageInput) : string :=
  if severe_symptoms d || hair_loss_with_pain d then urgent_notice
  else if known_chronic_condition d && negb base_referral then monitoring_notice
  else EmptyString.

(** ** The HTTP layer ([api_server.py])

    The views are functions of the parsed request body.  What Flask does
    before and after a view (content negotiation, JSON parsing, the handling
    of an exception that escapes a view) is not modelled: a view either
    returns a response or raises.  Logging is left out. *)

(** The value [request.get_json()] returns: a JSON document as Python's
    [json] module decodes it ([None], [bool], a finite number, [str],
    [list], [dict]).  The members of an object are listed as in the text;
    of two members with the same key the later one is kept. *)
#[local] Set Warnings "-register-all".
Inductive json : Type :=
  | JNull
  | JBool (b : bool)
  | JNumber (q : Q)
  | JString (s : string)
  | JArray (items : list json)
  | JObject (members : list (string * json)).

(** A view returns, or an exception leaves it. *)
Inductive outcome (A : Type) : Type :=
  | Returns (a : A)
  | Raises.
Arguments Returns {A} a.
Arguments Raises {A}.

(** [errors] of [validate_input]: a dictionary with at most these keys. *)
Record ValidationErrors : Set := {
  err_symptoms : option (list string);
  err_style_type : option string;
  err_wash_frequency : option string;
  err_product_use : option (list string)
}.

(** The dictionaries handed to [jsonify]. *)
Inductive Body : Type :=
  | ErrorBody (error : string) (status : option string)
  | TriageBody (result : TriageResult) (status timestamp api_version : string)
  | ValidationBody (valid : bool) (errors : option ValidationErrors)
                   (status : string).

Record Response : Type := {
  body : Body;
  status_code : Z
}.

(** One entry of the [conditions] dictionary of [list_conditions]. *)
Record ConditionInfo : Set := {
  info_care_plan_id : string;
  info_name : string;
  typically_requires_referral : bool;
  info_description : string
}.

Definition VALID_SYMPTOMS : gset string :=
  {[ "itching"; "itchy"; "flaking"; "flakes"; "dandruff"; "bumps"; "pustules";
     "pimples"; "small_bumps"; "pain"; "painful"; "tenderness"; "tender";
     "sore"; "soreness"; "dryness"; "dry"; "oily"; "greasy"; "scales";
     "scaling"; "thick_scales"; "silvery_scales"; "scale_patches"; "plaques";
     "redness"; "red"; "inflamed"; "swelling"; "hot"; "warm"; "burning";
     "hair_loss"; "thinning"; "bald_spots"; "edges_thinning"; "breakage";
     "bleeding"; "crusting"; "oozing"; "pus"; "infected_bumps"; "severe";
     "worsening"; "spreading"; "rash"; "hives" ]}.

Definition VALID_STYLE_TYPES : gset string :=
  {[ "natural"; "braids"; "cornrows"; "weave"; "extensions"; "locs";
     "twists"; "faux_locs"; "crochet"; "tight_ponytail"; "relaxed";
     "permed"; "none" ]}.

Definition VALID_WASH_FREQUENCIES : gset string :=
  {[ "daily"; "every_other_day"; "twice_weekly"; "weekly";
     "biweekly"; "monthly"; "less_than_monthly" ]}.

Definition VALID_PRODUCTS : gset string :=
  {[ "shampoo"; "conditioner"; "oil"; "gel"; "edge_control";
     "pomade"; "grease"; "wax"; "leave_in"; "mousse";
     "hairspray"; "serum" ]}.

(** [conditions] in [list_conditions], in the order of the literal. *)
Definition conditions : list (string * ConditionInfo) :=
  [ ("seborrheic_dermatitis",
     {| info_care_plan_id := "CP-001"; info_name := "Seborrheic Dermatitis";
        typically_requires_referral := false;
        info_description :=
          "Chronic inflammatory condition causing itching and flaking" |});
    ("folliculitis",
     {| info_care_plan_id := "CP-002"; info_name := "Folliculitis";
        typically_requires_referral := true;
        info_description :=
          "Inflammation of hair follicles, common with protective styles" |});
    ("psoriasis",
     {| info_care_plan_id := "CP-003"; info_name := "Psoriasis";
        typically_requires_referral := true;
        info_description :=
          "Chronic autoimmune condition causing thick, scaly patches" |});
    ("scalp_acne",
     {| info_care_plan_id := "CP-004"; info_name := "Scalp Acne";
        typically_requires_referral := false;
        info_description :=
          "Pimples and bumps from product buildup or excess oil" |});
    ("tension_damage",
     {| info_care_plan_id := "CP-005";
        info_name := "Tension Damage / Traction Alopecia";
        typically_requires_referral := true;
        info_description :=
          "Damage from tight hairstyles causing tenderness and hair loss" |});
    ("product_buildup",
     {| info_care_plan_id := "CP-006"; info_name := "Product Buildup";
        typically_requires_referral := false;
        info_description := "Accumulation of styling products on scalp" |});
    ("dry_scalp",
     {| info_care_plan_id := "CP-006"; info_name := "Dry Scalp";
        typically_requires_referral := false;
        info_description :=
          "Lack of moisture causing dryness and sometimes flaking" |});
    ("contact_dermatitis",
     {| info_care_plan_id := "CP-007"; info_name := "Contact Dermatitis";
        typically_requires_referral := false;
        info_description :=
          "Allergic reaction to hair products or chemicals" |}) ].

(** [conditions[label]], when the key is there. *)
Definition condition_info (label : string) : option ConditionInfo :=
  snd <$> List.find (λ entry, bool_decide (entry.1 = label)) conditions.

(** [len(conditions)]: the [total_count] of the response. *)
Definition total_count : Z := len conditions.

(** *** Python operations on decoded JSON *)

(** [bool(v)] *)
Definition truthy (v : json) : bool :=
  match v with
  | JNull => false
  | JBool b => b
  | JNumber q => negb (Qeq_bool q 0)
  | JString s => negb (bool_decide (s = EmptyString))
  | JArray items => negb (bool_decide (items = []))
  | JObject members => negb (bool_decide (members = []))
  end.

(** [d.get(key)] on the dictionary of an object: the last member with that
    key. *)
Fixpoint obj_get (key : string) (members : list (string * json))
  : option json :=
  match members with
  | [] => None
  | (k, v) :: rest =>
      match obj_get key rest with
      | Some later => Some later
      | None => if bool_decide (k = key) then Some v else None
      end
  end.

(** The keys of the dictionary of an object, in insertion order. *)
Fixpoint dict_keys_from (seen : list string) (members : list (string * json))
  : list string :=
  match members with
  | [] => []
  | (k, _) :: rest =>
      if bool_decide (k ∈ seen) then dict_keys_from seen rest
      else k :: dict_keys_from (k :: seen) rest
  end.

Definition dict_keys (members : list (string * json)) : list string :=
  dict_keys_from [] members.

(** [field in data] for a string [field]; [None] is the TypeError that
    [None], a boolean or a number gives. *)
Definition py_contains (field : string) (data : json) : option bool :=
  match data with
  | JObject members => Some (bool_decide (is_Some (obj_get field members)))
  | JArray items =>
      Some (existsb (λ v, match v with
                          | JString s => bool_decide (s = field)
                          | _ => false
                          end) items)
  | JString s => Some (str_contains field s)
  | JNull | JBool _ | JNumber _ => None
  end.

(** [data[key]] for a string [key]; [None] is the KeyError of a dictionary
    without the key, or the TypeError of any other value. *)
Definition py_index (key : string) (data : json) : option json :=
  match data with
  | JObject members => obj_get key members
  | _ => None
  end.

(** [v.lower()]; [None] is the AttributeError of a value that is not a
    string. *)
Definition py_lower (v : json) : option string :=
  match v with
  | JString s => Some (str_lower s)
  | _ => None
  end.

(** [iter(v)]: the items of a list, the characters of a string, the keys of
    a dictionary; [None] is the TypeError of the other values. *)
Definition py_iter (v : json) : option (list json) :=
  match v with
  | JArray items => Some items
  | JString s =>
      Some (map (λ c, JString (String c EmptyString)) (list_ascii_of_string s))
  | JObject members => Some (map JString (dict_keys members))
  | JNull | JBool _ | JNumber _ => None
  end.

Definition as_string (v : json) : option string :=
  match v with
  | JString s => Some s
  | _ => None
  end.

(** The strings a comprehension [[... s.lower() ... for s in v]] runs over;
    [None] when [v] cannot be iterated or holds a value without [lower]. *)
Definition py_strings (v : json) : option (list string) :=
  items ← py_iter v; mapM as_string items.

(** [', '.join(l)] and the like, for a list. *)
Fixpoint join (sep : string) (l : list string) : string :=
  match l with
  | [] => EmptyString
  | [s] => s
  | s :: rest => s +:+ sep +:+ join sep rest
  end.

(** *** [classify_symptoms] on a decoded request body

    [None] stands for the AttributeError or TypeError that [_parse_input]
    raises on a body that is not a dictionary or on an ill-typed field.
    [image_uploaded] is stored as it comes and never read; the model keeps
    its truth value. *)
Definition to_input_dict (data : json) : option InputDict :=
  match data with
  | JObject members =>
      syms ← from_option py_strings (Some []) (obj_get "symptoms" members);
      style ← from_option as_string (Some EmptyString)
                (obj_get "style_type" members);
      wash ← from_option as_string (Some EmptyString)
               (obj_get "wash_frequency" members);
      products ← from_option py_strings (Some [])
                   (obj_get "product_use" members);
      issues ← from_option py_strings (Some [])
                 (obj_get "known_issues" members);
      Some {| get_symptoms := Some syms;
              get_style_type := Some style;
              get_wash_frequency := Some wash;
              get_product_use := Some products;
              get_known_issues := Some issues;
              get_image_uploaded :=
                Some (from_option truthy false
                        (obj_get "image_uploaded" members)) |}
  | _ => None
  end.

Definition classify_symptoms_json (data : json) : option TriageResult :=
  classify_symptoms <$> to_input_dict data.

(** *** The views *)

Definition required : list string :=
  ["symptoms"; "style_type"; "wash_frequency"].

(** [[field for field in required if field not in data]] *)
Fixpoint missing_fields (fields : list string) (data : json)
  : option (list string) :=
  match fields with
  | [] => Some []
  | field :: rest =>
      present ← py_contains field data;
      missing ← missing_fields rest data;
      Some (if (present : bool) then missing else field :: missing)
  end.

(** [[s for s in v if s.lower() not in vocabulary]] *)
Definition unknown_tokens (vocabulary : gset string) (v : json)
  : option (list string) :=
  tokens ← py_strings v;
  Some (List.filter (λ s, bool_decide (str_lower s ∉ vocabulary)) tokens).

Definition error_response (message : string) (code : Z) : Response :=
  {| body := ErrorBody message (Some "error"); status_code := code |}.

Section Views.

(** [', '.join(s)] for a set [s]: the order is the iteration order of the
    set in the running interpreter. *)
Variable join_set : gset string → string.

(** [datetime.utcnow().isoformat()] at the time of the request. *)
Variable utcnow_isoformat : string.

(** The function that [validate_triage_input(f)] returns. *)
Definition validate_triage_input (f : json → outcome Response) (data : json)
  : outcome Response :=
  if negb (truthy data) then
    Returns (error_response "No JSON payload provided" 400)
  else
    match missing_fields required data with
    | None => Raises
    | Some (field :: others) =>
        Returns (error_response
                   ("Missing required fields: "
                    +:+ join ", " (field :: others)) 400)
    | Some [] =>
        match data with
        | JObject members =>
            match obj_get "symptoms" members with
            | Some (JArray (_ :: _)) =>
                match style ← py_index "style_type" data; py_lower style with
                | None => Raises
                | Some style =>
                    if bool_decide (style ∉ VALID_STYLE_TYPES) then
                      Returns (error_response
                                 ("Invalid style_type. Must be one of: "
                                  +:+ join_set VALID_STYLE_TYPES) 400)
                    else
                      match wash ← py_index "wash_frequency" data;
                            py_lower wash with
                      | None => Raises
                      | Some wash =>
                          if bool_decide (wash ∉ VALID_WASH_FREQUENCIES) then
                            Returns (error_response
                                       ("Invalid wash_frequency. Must be one of: "
                                        +:+ join_set VALID_WASH_FREQUENCIES)
                                       400)
                          else f data
                      end
                end
            | _ =>
                Returns (error_response "Symptoms must be a non-empty array"
                                        400)
            end
        | _ => Raises
        end
    end.

(** The body of [triage]: everything runs inside [try]; any exception gives
    the 500 response. *)
Definition triage_view (data : json) : outcome Response :=
  match classify_symptoms_json data with
  | Some result =>
      Returns {| body := TriageBody result "success" utcnow_isoformat "1.0.0";
                 status_code := 200 |}
  | None =>
      Returns (error_response "Internal server error during classification"
                              500)
  end.

(** [triage] as routed: decorated with [validate_triage_input]. *)
Definition triage (data : json) : outcome Response :=
  validate_triage_input triage_view data.

(** The four checks of [validate_input]; [None] is an exception. *)
Definition check_tokens (key : string) (vocabulary : gset string)
    (message : string → string) (data : json) : option (option (list string)) :=
  present ← py_contains key data;
  if (present : bool) then
    value ← py_index key data;
    unknown ← unknown_tokens vocabulary value;
    Some (match unknown with
          | [] => None
          | _ :: _ => Some (map message unknown)
          end)
  else Some None.

Definition check_token (key : string) (vocabulary : gset string) (data : json)
  : option (option string) :=
  present ← py_contains key data;
  if (present : bool) then
    value ← py_index key data;
    lowered ← py_lower value;
    Some (if bool_decide (lowered ∉ vocabulary)
          then Some ("Must be one of: " +:+ join_set vocabulary)
          else None)
  else Some None.

Definition validation_errors (data : json) : option ValidationErrors :=
  syms ← check_tokens "symptoms" VALID_SYMPTOMS
            (λ s, "'" +:+ s +:+ "' is not a recognized symptom") data;
  style ← check_token "style_type" VALID_STYLE_TYPES data;
  wash ← check_token "wash_frequency" VALID_WASH_FREQUENCIES data;
  products ← check_tokens "product_use" VALID_PRODUCTS
               (λ p, "'" +:+ p +:+ "' is not recognized") data;
  Some {| err_symptoms := syms; err_style_type := style;
          err_wash_frequency := wash; err_product_use := products |}.

(** [len(errors) == 0] *)
Definition no_errors (errors : ValidationErrors) : bool :=
  match err_symptoms errors, err_style_type errors,
        err_wash_frequency errors, err_product_use errors with
  | None, None, None, None => true
  | _, _, _, _ => false
  end.

Definition validate_input (data : json) : outcome Response :=
  if negb (truthy data) then
    Returns {| body := ErrorBody "No JSON payload provided" None;
               status_code := 400 |}
  else
    match validation_errors data with
    | None => Raises
    | Some errors =>
        let is_valid := no_errors errors in
        Returns {| body := ValidationBody is_valid
                             (if negb is_valid then Some errors else None)
                             "success";
                   status_code := 200 |}
    end.

End Views.

(** A sequence of characters that does not start with white space. *)
Definition starts_clean (l : list ascii) : Prop :=
  match l with
  | [] => True
  | c :: _ => is_space c = false
  end.

(** The request body of the documentation of [triage], with mixed case. *)
Definition documented_members : list (string * json) :=
  [ ("symptoms", JArray [JString "itching"; JString "flaking"]);
    ("style_type", JString "Braids");
    ("wash_frequency", JString "weekly");
    ("product_use", JArray [JString "oil"; JString "gel"]);
    ("known_issues", JArray [JString "eczema"]);
    ("image_uploaded", JBool false) ].

Definition documented_request : json := JObject documented_members.

(** * Properties *)

(** ** The end-to-end examples of the engine's documentation *)

Example example_1 :
  let r := classify (request ["itching"; "flaking"] "natural" "weekly" ["oil"] []) in
  condition_label r = "seborrheic_dermatitis" ∧ care_plan_id r = "CP-001"
  ∧ referral_required r = false.
Proof. vm_compute. done. Qed.

Example example_2 :
  let r := classify (request ["bumps"; "pain"] "braids" "weekly" [] []) in
  condition_label r = "folliculitis" ∧ referral_required r = true
  ∧ severity_score r = 8.
Proof. vm_compute. done. Qed.

Example example_normalized :
  classify (request ["  Bumps"; "PAIN "] " Braids " "weekly" [] [])
  = classify (request ["bumps"; "pain"] "braids" "weekly" [] []).
Proof. vm_compute. done. Qed.

(** ** Token lookups *)

Lemma any_in_cons t tokens l :
  any_in (t :: tokens) l = bool_decide (t ∈ l) || any_in tokens l.
Proof. reflexivity. Qed.

Lemma any_in_true tokens l :
  any_in tokens l = true ↔ ∃ t, t ∈ tokens ∧ t ∈ l.
Proof.
  induction tokens as [|t tokens IH].
  - split; [discriminate | intros (t & Ht & _); inversion Ht].
  - rewrite any_in_cons, orb_true_iff, IH, bool_decide_eq_true. split.
    + intros [Ht | (t' & Ht' & Hl)]; [exists t | exists t'];
        (split; [constructor; by eauto | done]).
    + intros (t' & Ht' & Hl). apply elem_of_cons in Ht' as [-> | Ht'];
        [by left | right; eauto].
Qed.

(** Two collections that agree on the tokens looked up give the same
    answer. *)
Lemma any_in_agree tokens l l' :
  (∀ t, t ∈ tokens → t ∈ l ↔ t ∈ l') → any_in tokens l = any_in tokens l'.
Proof.
  induction tokens as [|t tokens IH]; intros H; [done|].
  rewrite !any_in_cons. f_equal.
  - apply bool_decide_ext, H. by left.
  - apply IH. intros t' Ht'. apply H. by right.
Qed.

Lemma any_in_mono tokens tokens' l :
  tokens ⊆ tokens' → any_in tokens l = true → any_in tokens' l = true.
Proof. rewrite !any_in_true. intros Hsub (t & Ht & Hl). exists t. auto. Qed.

Lemma any_in_elem t tokens l :
  t ∈ tokens → t ∈ l → any_in tokens l = true.
Proof. intros. apply any_in_true. eauto. Qed.

(** A decidable closed proposition, settled by evaluating its decision. *)
Ltac decide_by_eval := apply (bool_decide_unpack _); vm_compute; exact I.

(** Membership in a concrete token list, decided by evaluation. *)
Lemma tokens_sub (tokens vocabulary : list string) :
  forallb (λ t, bool_decide (t ∈ vocabulary)) tokens = true →
  ∀ t, t ∈ tokens → t ∈ vocabulary.
Proof.
  rewrite forallb_forall. intros H t Ht.
  apply list_elem_of_In, H in Ht. by apply bool_decide_eq_true in Ht.
Qed.

(** ** Confidence calculator *)

Lemma calculate_confidence_value score max_score :
  ∃ c, _calculate_confidence score max_score = ConfidenceLevel_value c.
Proof.
  unfold _calculate_confidence.
  destruct (PrimFloat.leb (to_float 70) _); [by exists HIGH|].
  destruct (PrimFloat.leb (to_float 40) _); [by exists MODERATE | by exists LOW].
Qed.

Lemma small_score (s bound : Z) :
  0 ≤ s ≤ bound → ∃ n : nat, (n ≤ Z.to_nat bound)%nat ∧ s = Z.of_nat n.
Proof. intros H. exists (Z.to_nat s). lia. Qed.

Ltac each_score n :=
  do 13 (destruct n as [|n]; [vm_compute; reflexivity|]); simpl in *; lia.

(** On the scores a rule can reach, the binary64 computation of
    [_calculate_confidence] selects the band of the exact percentage. *)
Lemma calculate_confidence_exact score max_score :
  max_score ∈ [7; 8; 10; 11; 12] → 0 ≤ score ≤ max_score →
  _calculate_confidence score max_score
  = ConfidenceLevel_value (confidence_band score max_score).
Proof.
  intros Hm Hs.
  destruct (small_score score max_score Hs) as (n & Hn & ->).
  repeat (apply elem_of_cons in Hm as [-> | Hm]); [..| inversion Hm];
    each_score n.
Qed.

(** ** Score ranges *)

Ltac split_bumps :=
  unfold bump; simpl;
  repeat match goal with
         | |- context [if ?c then _ else _] => destruct c; simpl
         end.

Lemma folliculitis_score_range d : 0 ≤ folliculitis_score d ≤ 10.
Proof. unfold folliculitis_score. split_bumps; lia. Qed.

Lemma psoriasis_score_range d : 0 ≤ psoriasis_score d ≤ 12.
Proof. unfold psoriasis_score. split_bumps; lia. Qed.

Lemma tension_score_range d : 0 ≤ tension_score d ≤ 11.
Proof.
  unfold tension_score.
  destruct (tension_has_tenderness d), (has_protective_style d),
    (tension_has_hair_loss d), (tension_has_bumps d); simpl; lia.
Qed.

Lemma seborrheic_score_range d : 0 ≤ seborrheic_score d ≤ 8.
Proof.
  unfold seborrheic_score.
  destruct (seborrheic_has_itching d), (seborrheic_has_flaking d),
    (seborrheic_has_oily d), (seborrheic_has_redness d); simpl; lia.
Qed.

Lemma contact_score_range d : 0 ≤ contact_score d ≤ 7.
Proof. unfold contact_score. split_bumps; lia. Qed.

Lemma acne_score_range d : 0 ≤ acne_score d ≤ 8.
Proof. unfold acne_score. split_bumps; lia. Qed.

Lemma buildup_score_range d : 0 ≤ buildup_score d ≤ 7.
Proof. unfold buildup_score. split_bumps; lia. Qed.

Lemma dry_score_range d : 0 ≤ dry_score d ≤ 6.
Proof. unfold dry_score. split_bumps; lia. Qed.

(** ** Overlap of the folliculitis and tension-damage indicators *)

Ltac sub_tokens := intros ?; apply tokens_sub; vm_compute; reflexivity.

Lemma tension_bumps_folliculitis d :
  tension_has_bumps d = true → folliculitis_has_bumps d = true.
Proof. apply any_in_mono. sub_tokens. Qed.

Lemma tension_tenderness_folliculitis d :
  tension_has_tenderness d = true → folliculitis_has_pain d = true.
Proof. apply any_in_mono. sub_tokens. Qed.

(** With bumps present, a tension score of 5 or more needs tenderness, and
    bumps with tenderness already reach the folliculitis threshold. *)
Lemma tension_disqualified_folliculitis d :
  tension_has_bumps d = true → 5 ≤ tension_score d → 5 ≤ folliculitis_score d.
Proof.
  intros Hb Hs.
  pose proof (tension_bumps_folliculitis d Hb) as Hfb.
  pose proof (tension_tenderness_folliculitis d) as Hft.
  unfold tension_score in Hs. unfold folliculitis_score.
  rewrite Hb in Hs. rewrite Hfb.
  destruct (tension_has_tenderness d).
  - rewrite Hft by done. split_bumps; lia.
  - revert Hs. split_bumps; lia.
Qed.

(** ** The rule chain against the rule table *)

(** The loop of [_run_decision_tree] returns the result of the first rule
    whose score clears its threshold, and [None] when there is none.  The
    bumps disqualifier of the tension rule never bites at that point: the
    same input would have matched folliculitis. *)
Lemma chain_first_clearing d :
  match first_clearing d with
  | Some sp => ∃ r, first_match rule_chain d = Some r ∧ matched_by sp d r
  | None => first_match rule_chain d = None
  end.
Proof.
  unfold first_clearing, rule_specs, rule_chain.
  cbn [List.find first_match]. unfold clears. cbn [rule_threshold rule_score].
  assert (hit : ∀ sp (c : bool) (r : TriageResult),
    rule_check sp d = (if c then Some r else None) → c = true →
    condition_label r = ConditionLabel_value (rule_label sp) →
    care_plan_id r = CARE_PLANS (rule_label sp) →
    confidence_level r = rule_confidence sp d →
    ∃ r', Some r = Some r' ∧ matched_by sp d r').
  { intros sp c r Hcheck -> Hl Hp Hc. by exists r. }
  destruct (5 <=? folliculitis_score d) eqn:Efol; cbv beta iota.
  { unfold _check_folliculitis at 1. rewrite Efol. by eapply hit. }
  unfold _check_folliculitis. rewrite Efol.
  destruct (5 <=? psoriasis_score d) eqn:Epso; cbv beta iota.
  { unfold _check_psoriasis at 1. rewrite Epso. by eapply hit. }
  unfold _check_psoriasis. rewrite Epso.
  destruct (5 <=? tension_score d) eqn:Eten; cbv beta iota.
  { destruct (tension_has_bumps d) eqn:Ebumps.
    - apply Z.leb_le in Eten. apply Z.leb_gt in Efol.
      pose proof (tension_disqualified_folliculitis d Ebumps Eten). lia.
    - unfold _check_tension_damage at 1. rewrite Eten, Ebumps. cbn [andb negb].
      eapply hit; [| | done..];
        [cbn [rule_check]; unfold _check_tension_damage;
         rewrite Eten, Ebumps; reflexivity | done]. }
  unfold _check_tension_damage. rewrite Eten. cbn [andb].
  destruct (4 <=? seborrheic_score d) eqn:Eseb; cbv beta iota.
  { unfold _check_seborrheic_dermatitis at 1. rewrite Eseb. by eapply hit. }
  unfold _check_seborrheic_dermatitis. rewrite Eseb.
  destruct (4 <=? contact_score d) eqn:Econ; cbv beta iota.
  { unfold _check_contact_dermatitis at 1. rewrite Econ. by eapply hit. }
  unfold _check_contact_dermatitis. rewrite Econ.
  destruct (4 <=? acne_score d) eqn:Eacne; cbv beta iota.
  { unfold _check_scalp_acne at 1. rewrite Eacne. by eapply hit. }
  unfold _check_scalp_acne. rewrite Eacne.
  destruct (4 <=? buildup_score d) eqn:Ebuild; cbv beta iota.
  { unfold _check_product_buildup at 1. rewrite Ebuild. by eapply hit. }
  unfold _check_product_buildup. rewrite Ebuild.
  destruct (3 <=? dry_score d) eqn:Edry; cbv beta iota.
  { unfold _check_dry_scalp at 1. rewrite Edry. by eapply hit. }
  unfold _check_dry_scalp. by rewrite Edry.
Qed.

Lemma first_clearing_spec d sp :
  first_clearing d = Some sp →
  sp ∈ rule_specs ∧ rule_threshold sp ≤ rule_score sp d.
Proof.
  intros H. apply find_some in H as [Hin Hc].
  split; [by apply list_elem_of_In | by apply Z.leb_le].
Qed.

(** The base result: one of the nine labels with its care plan, a
    confidence level of the enumeration, a severity between 2 and 8. *)
Lemma run_decision_tree_shape d :
  let r := _run_decision_tree d in
  (∃ l, condition_label r = ConditionLabel_value l
        ∧ care_plan_id r = CARE_PLANS l)
  ∧ (∃ c, confidence_level r = ConfidenceLevel_value c)
  ∧ 2 ≤ severity_score r ≤ 8.
Proof.
  assert (shape : ∀ l conf text sev ref,
    (∃ c, conf = ConfidenceLevel_value c) → 2 ≤ sev ≤ 8 →
    let r := {| condition_label := ConditionLabel_value l;
                care_plan_id := CARE_PLANS l;
                referral_required := ref;
                confidence_level := conf;
                reasoning := text;
                severity_score := sev |} in
    (∃ l, condition_label r = ConditionLabel_value l
          ∧ care_plan_id r = CARE_PLANS l)
    ∧ (∃ c, confidence_level r = ConfidenceLevel_value c)
    ∧ 2 ≤ severity_score r ≤ 8) by (cbn; eauto).
  unfold _run_decision_tree, rule_chain. cbn [first_match].
  unfold _check_folliculitis.
  destruct (5 <=? folliculitis_score d);
    [apply shape; [apply calculate_confidence_value | lia] |].
  unfold _check_psoriasis.
  destruct (5 <=? psoriasis_score d);
    [apply shape; [apply calculate_confidence_value | lia] |].
  unfold _check_tension_damage.
  destruct ((5 <=? tension_score d) && negb (tension_has_bumps d));
    [apply shape; [apply calculate_confidence_value | lia] |].
  unfold _check_seborrheic_dermatitis.
  destruct (4 <=? seborrheic_score d).
  { apply shape; [apply calculate_confidence_value |].
    destruct (seborrheic_needs_referral d); cbn; lia. }
  unfold _check_contact_dermatitis.
  destruct (4 <=? contact_score d);
    [apply shape; [apply calculate_confidence_value | lia] |].
  unfold _check_scalp_acne.
  destruct (4 <=? acne_score d);
    [apply shape; [apply calculate_confidence_value | lia] |].
  unfold _check_product_buildup.
  destruct (4 <=? buildup_score d);
    [apply shape; [apply calculate_confidence_value | lia] |].
  unfold _check_dry_scalp.
  destruct (3 <=? dry_score d); [apply shape; [by exists MODERATE | lia] |].
  apply shape; [by exists LOW | lia].
Qed.

(** ** The referral override and the output format *)

Lemma format_output_id r : _format_output r = r.
Proof. by destruct r. Qed.

Lemma classify_unfold data :
  classify data
  = _apply_referral_rules (_run_decision_tree (_parse_input data))
                          (_parse_input data).
Proof. unfold classify. apply format_output_id. Qed.

(** The override leaves label, care plan and confidence alone. *)
Lemma apply_referral_rules_keeps r d :
  let r' := _apply_referral_rules r d in
  condition_label r' = condition_label r
  ∧ care_plan_id r' = care_plan_id r
  ∧ confidence_level r' = confidence_level r.
Proof.
  unfold _apply_referral_rules. destruct r as [l cp ref conf text sev].
  destruct (severe_symptoms d || hair_loss_with_pain d),
    (known_chronic_condition d), ref; cbn; done.
Qed.

(** The override never lowers the referral flag or the severity. *)
Lemma apply_referral_rules_raises r d :
  let r' := _apply_referral_rules r d in
  (referral_required r = true → referral_required r' = true)
  ∧ severity_score r ≤ severity_score r'
  ∧ severity_score r' ≤ Z.max (severity_score r) 8.
Proof.
  unfold _apply_referral_rules. destruct r as [l cp ref conf text sev].
  destruct (severe_symptoms d || hair_loss_with_pain d),
    (known_chronic_condition d), ref; cbn;
    repeat split; auto; lia.
Qed.

(** The override when a severe trigger is present. *)
Lemma apply_referral_rules_urgent r d :
  severe_symptoms d || hair_loss_with_pain d = true →
  _apply_referral_rules r d
  = {| condition_label := condition_label r;
       care_plan_id := care_plan_id r;
       referral_required := true;
       confidence_level := confidence_level r;
       reasoning := reasoning r +:+ urgent_notice;
       severity_score := Z.max (severity_score r) 8 |}.
Proof.
  intros H. unfold _apply_referral_rules. rewrite H. cbn.
  by rewrite andb_false_r.
Qed.

(** ** Facts about [classify] shared by the properties below *)

Lemma classify_base data :
  let r := classify data in
  let base := _run_decision_tree (_parse_input data) in
  condition_label r = condition_label base
  ∧ care_plan_id r = care_plan_id base
  ∧ confidence_level r = confidence_level base.
Proof. cbv zeta. rewrite classify_unfold. apply apply_referral_rules_keeps. Qed.

Lemma classify_severity_range data : 2 ≤ severity_score (classify data) ≤ 8.
Proof.
  rewrite classify_unfold.
  destruct (run_decision_tree_shape (_parse_input data)) as (_ & _ & Hbase).
  destruct (apply_referral_rules_raises
              (_run_decision_tree (_parse_input data)) (_parse_input data))
    as (_ & Hlo & Hhi).
  lia.
Qed.

(** The base result is the result of the first clearing rule, or the
    fallback. *)
Lemma run_decision_tree_first_clearing d :
  match first_clearing d with
  | Some sp => matched_by sp d (_run_decision_tree d)
  | None => _run_decision_tree d = _create_unclear_result d
  end.
Proof.
  pose proof (chain_first_clearing d) as H. unfold _run_decision_tree.
  destruct (first_clearing d) as [sp|].
  - destruct H as (r & -> & Hr). exact Hr.
  - by rewrite H.
Qed.

Lemma ConditionLabel_value_inj l l' :
  ConditionLabel_value l = ConditionLabel_value l' → l = l'.
Proof. destruct l, l'; cbn; intros H; first [reflexivity | discriminate H]. Qed.

(** ** C1 *)

(** C1. The rule chain is the fixed list Folliculitis, Psoriasis,
    TensionDamage, SeborrheicDermatitis, ContactDermatitis, ScalpAcne,
    ProductBuildup, DryScalp; the label returned by [classify] is the label
    of the first rule of that list whose score clears its threshold (and
    [unclear] when there is none); in particular an input that clears both
    the folliculitis and the seborrheic-dermatitis threshold is labelled
    folliculitis, whatever the two scores are. *)
Theorem C1_priority_order :
  rule_chain = [ _check_folliculitis; _check_psoriasis; _check_tension_damage;
                 _check_seborrheic_dermatitis; _check_contact_dermatitis;
                 _check_scalp_acne; _check_product_buildup; _check_dry_scalp ]
  ∧ map rule_label rule_specs
    = [ FOLLICULITIS; PSORIASIS; TENSION_DAMAGE; SEBORRHEIC_DERMATITIS;
        CONTACT_DERMATITIS; SCALP_ACNE; PRODUCT_BUILDUP; DRY_SCALP ]
  ∧ (∀ data,
       condition_label (classify data)
       = ConditionLabel_value
           (from_option rule_label UNCLEAR (first_clearing (_parse_input data))))
  ∧ (∀ data,
       5 ≤ folliculitis_score (_parse_input data) →
       4 ≤ seborrheic_score (_parse_input data) →
       condition_label (classify data) = "folliculitis").
Proof.
  assert (Hfirst : ∀ data,
    condition_label (classify data)
    = ConditionLabel_value
        (from_option rule_label UNCLEAR (first_clearing (_parse_input data)))).
  { intros data. destruct (classify_base data) as (-> & _).
    pose proof (run_decision_tree_first_clearing (_parse_input data)) as H.
    destruct (first_clearing (_parse_input data)) as [sp|]; cbn.
    - apply H.
    - by rewrite H. }
  repeat split; [exact Hfirst|].
  intros data Hfol _. rewrite Hfirst.
  unfold first_clearing, rule_specs. cbn [List.find]. unfold clears at 1.
  cbn [rule_threshold rule_score].
  apply Z.leb_le in Hfol. by rewrite Hfol.
Qed.

(** An input whose seborrheic score (7) exceeds its folliculitis score (5). *)
Lemma C1_priority_order_witness :
  let data := request ["bumps"; "itching"; "flaking"; "oily"]
                      "braids" "weekly" [] [] in
  folliculitis_score (_parse_input data) = 5
  ∧ seborrheic_score (_parse_input data) = 7
  ∧ condition_label (classify data) = "folliculitis".
Proof.
  split; [by vm_compute|]. split; [by vm_compute|].
  apply C1_priority_order; by vm_compute.
Defined.

(** ** C2 *)

(** C2. For every well-typed input the record returned by [classify] has one
    of the nine labels, the care plan that [CARE_PLANS] gives for that
    label (CP-006 for both dry_scalp and product_buildup, CP-999 for
    unclear), a severity between 1 and 10 and a confidence level among low,
    moderate and high. *)
Theorem C2_result_well_formed :
  ∀ data,
    let r := classify data in
    condition_label r
      ∈ [ "seborrheic_dermatitis"; "folliculitis"; "psoriasis"; "scalp_acne";
          "tension_damage"; "product_buildup"; "dry_scalp";
          "contact_dermatitis"; "unclear" ]
    ∧ (∃ l, condition_label r = ConditionLabel_value l
            ∧ care_plan_id r = CARE_PLANS l)
    ∧ CARE_PLANS DRY_SCALP = "CP-006"
    ∧ CARE_PLANS PRODUCT_BUILDUP = "CP-006"
    ∧ CARE_PLANS UNCLEAR = "CP-999"
    ∧ 1 ≤ severity_score r ≤ 10
    ∧ confidence_level r ∈ ["low"; "moderate"; "high"].
Proof.
  intros data r.
  destruct (classify_base data) as (Hl & Hp & Hc).
  destruct (run_decision_tree_shape (_parse_input data))
    as ((l & Hbl & Hbp) & (c & Hbc) & _).
  pose proof (classify_severity_range data) as Hsev.
  fold r in Hl, Hp, Hc, Hsev.
  rewrite Hbl in Hl. rewrite Hbp in Hp. rewrite Hbc in Hc.
  split; [rewrite Hl; destruct l; decide_by_eval|].
  split; [by exists l|].
  repeat (split; [done|]).
  split; [lia|].
  rewrite Hc; destruct c; decide_by_eval.
Qed.

(** ** C3 *)

(** C3. When the normalized symptoms hold one of bleeding, pus, oozing,
    crusting, severe, worsening, spreading, fever, or hold both a hair-loss
    token (hair_loss, bald_spots) and a pain token (pain, tenderness), the
    result of [classify] has referral_required = true, a severity equal to
    max(base severity, 8), hence at least 8, and the reasoning of the base
    result followed by the urgent notice; label, care plan and confidence are
    those of the base result, whichever rule or fallback produced it. *)
Theorem C3_severe_override :
  ∀ data,
    let d := _parse_input data in
    let base := _run_decision_tree d in
    let r := classify data in
    (∃ t, t ∈ ["bleeding"; "pus"; "oozing"; "crusting"; "severe";
               "worsening"; "spreading"; "fever"] ∧ t ∈ symptoms d)
    ∨ ((∃ t, t ∈ ["hair_loss"; "bald_spots"] ∧ t ∈ symptoms d)
       ∧ (∃ t, t ∈ ["pain"; "tenderness"] ∧ t ∈ symptoms d)) →
    referral_required r = true
    ∧ severity_score r = Z.max (severity_score base) 8
    ∧ 8 ≤ severity_score r
    ∧ reasoning r
      = reasoning base
        +:+ " URGENT: Severe symptoms require immediate professional evaluation."
    ∧ condition_label r = condition_label base
    ∧ care_plan_id r = care_plan_id base
    ∧ confidence_level r = confidence_level base.
Proof.
  intros data d base r Htrigger.
  assert (Hurgent : severe_symptoms d || hair_loss_with_pain d = true).
  { apply orb_true_iff. destruct Htrigger as [Hsev | [Hloss Hpain]].
    - left. by apply any_in_true.
    - right. unfold hair_loss_with_pain.
      apply andb_true_iff. split; by apply any_in_true. }
  subst r. rewrite classify_unfold. fold d. fold base.
  rewrite (apply_referral_rules_urgent base d Hurgent). cbn.
  repeat split; try done; lia.
Qed.

(** End-to-end example 4: bleeding alone falls to the fallback (severity 5)
    and is raised to a referral of severity 8. *)
Lemma C3_severe_override_witness :
  let r := classify (request ["bleeding"] "none" "weekly" [] []) in
  referral_required r = true ∧ severity_score r = 8
  ∧ condition_label r = "unclear".
Proof.
  pose proof (C3_severe_override (request ["bleeding"] "none" "weekly" [] []))
    as H.
  cbv zeta in H.
  destruct H as (Hr & Hs & _ & _ & Hl & _).
  - left. exists "bleeding". split; decide_by_eval.
  - cbv zeta. rewrite Hr, Hs, Hl. clear. vm_compute. repeat split; reflexivity.
Defined.

(** ** C5 *)

Lemma tension_damage_bumps d :
  tension_has_bumps d = true → _check_tension_damage d = None.
Proof.
  intros H. unfold _check_tension_damage. rewrite H.
  by rewrite andb_false_r.
Qed.

(** C5. With bumps among the symptoms the tension-damage rule returns no
    candidate, whatever its score, and [classify] does not answer
    tension_damage; when tenderness, hair_loss and a protective style come
    with the bumps, the folliculitis rule captures the input. *)
Theorem C5_tension_disqualified :
  ∀ data,
    let d := _parse_input data in
    "bumps" ∈ symptoms d →
    (_check_tension_damage d = None
     ∧ condition_label (classify data) ≠ "tension_damage")
    ∧ ("tenderness" ∈ symptoms d → "hair_loss" ∈ symptoms d →
       style_type d ∈ PROTECTIVE_STYLES →
       9 ≤ tension_score d
       ∧ condition_label (classify data) = "folliculitis").
Proof.
  intros data d Hbumps.
  assert (Htb : tension_has_bumps d = true).
  { apply (any_in_elem "bumps"); [decide_by_eval | done]. }
  pose proof (tension_damage_bumps d Htb) as Hnone.
  split.
  - split; [done|].
    destruct (classify_base data) as (-> & _). fold d.
    pose proof (run_decision_tree_first_clearing d) as H.
    destruct (first_clearing d) as [sp|] eqn:Hsp.
    + destruct H as (Hcheck & -> & _).
      apply first_clearing_spec in Hsp as [Hin _].
      unfold rule_specs in Hin.
      repeat (apply elem_of_cons in Hin as [-> | Hin]);
        [..| inversion Hin]; cbn in *; congruence.
    + by rewrite H.
  - intros Htender Hloss Hstyle.
    assert (Hfb : folliculitis_has_bumps d = true)
      by by apply tension_bumps_folliculitis.
    assert (Hfp : folliculitis_has_pain d = true).
    { apply (any_in_elem "tenderness"); [decide_by_eval | done]. }
    assert (Htt : tension_has_tenderness d = true).
    { apply (any_in_elem "tenderness"); [decide_by_eval | done]. }
    assert (Hth : tension_has_hair_loss d = true).
    { apply (any_in_elem "hair_loss"); [decide_by_eval | done]. }
    assert (Hps : has_protective_style d = true)
      by by apply bool_decide_eq_true.
    split.
    + unfold tension_score. rewrite Htt, Hth, Hps, Htb. by cbn.
    + destruct (classify_base data) as (-> & _). fold d.
      unfold _run_decision_tree, rule_chain. cbn [first_match].
      unfold _check_folliculitis, folliculitis_score.
      rewrite Hfb, Hfp, Hps. unfold bump.
      by destruct (folliculitis_has_inflammation d).
Qed.

Lemma C5_tension_disqualified_witness :
  let data := request ["tenderness"; "hair_loss"; "bumps"]
                      "braids" "weekly" [] [] in
  condition_label (classify data) ≠ "tension_damage"
  ∧ condition_label (classify data) = "folliculitis".
Proof.
  pose proof (C5_tension_disqualified
                (request ["tenderness"; "hair_loss"; "bumps"]
                         "braids" "weekly" [] [])) as H.
  cbv zeta in H.
  destruct H as [[_ Hne] Hfol]; [decide_by_eval|].
  split; [exact Hne|].
  apply Hfol; decide_by_eval.
Defined.

(** ** C6 *)

Lemma rule_confidence_exact d sp :
  sp ∈ rule_specs →
  match rule_max_score sp with
  | Some max_score =>
      rule_label sp ≠ DRY_SCALP
      ∧ rule_confidence sp d
        = ConfidenceLevel_value (confidence_band (rule_score sp d) max_score)
  | None =>
      rule_label sp = DRY_SCALP
      ∧ rule_confidence sp d = ConfidenceLevel_value MODERATE
  end.
Proof.
  intros Hin. unfold rule_specs in Hin.
  repeat (apply elem_of_cons in Hin as [-> | Hin]); [..| inversion Hin];
    cbn [rule_max_score rule_label rule_score]; (split; [done|]);
    unfold rule_confidence; cbn [rule_max_score rule_score];
    try (apply calculate_confidence_exact; [decide_by_eval|]).
  - apply folliculitis_score_range.
  - apply psoriasis_score_range.
  - apply tension_score_range.
  - pose proof (seborrheic_score_range d). lia.
  - apply contact_score_range.
  - apply acne_score_range.
  - apply buildup_score_range.
  - reflexivity.
Qed.

Lemma confidence_band_spec score max_score :
  (confidence_band score max_score = HIGH
   ↔ (70 <= percentage score max_score)%Q)
  ∧ (confidence_band score max_score = MODERATE
     ↔ (40 <= percentage score max_score)%Q
       ∧ (percentage score max_score < 70)%Q)
  ∧ (confidence_band score max_score = LOW
     ↔ (percentage score max_score < 40)%Q).
Proof.
  unfold confidence_band. generalize (percentage score max_score) as q.
  intros q.
  destruct (Qle_bool 70 q) eqn:E70;
    [apply Qle_bool_iff in E70
    |apply not_true_iff_false in E70; rewrite Qle_bool_iff in E70];
    (destruct (Qle_bool 40 q) eqn:E40;
     [apply Qle_bool_iff in E40
     |apply not_true_iff_false in E40; rewrite Qle_bool_iff in E40]);
    repeat split; intros; try discriminate; try reflexivity;
    repeat match goal with H : _ ∧ _ |- _ => destruct H end; lra.
Qed.

(** C6. The confidence of a result is the band of the exact percentage
    score / max_score × 100 of the rule that matched (high from 70, moderate
    from 40 and below 70, low below 40), with that rule's fixed max_score,
    for every rule but DryScalp; a DryScalp match reports moderate without
    the calculator, as in end-to-end example 3; the fallback reports low. *)
Theorem C6_confidence_banding :
  (∀ data,
     let d := _parse_input data in
     match first_clearing d with
     | Some sp =>
         match rule_max_score sp with
         | Some max_score =>
             rule_label sp ≠ DRY_SCALP
             ∧ confidence_level (classify data)
               = _calculate_confidence (rule_score sp d) max_score
             ∧ confidence_level (classify data)
               = ConfidenceLevel_value
                   (confidence_band (rule_score sp d) max_score)
         | None =>
             rule_label sp = DRY_SCALP
             ∧ confidence_level (classify data) = "moderate"
         end
     | None => confidence_level (classify data) = "low"
     end)
  ∧ (∀ score max_score,
       (confidence_band score max_score = HIGH
        ↔ (70 <= percentage score max_score)%Q)
       ∧ (confidence_band score max_score = MODERATE
          ↔ (40 <= percentage score max_score)%Q
            ∧ (percentage score max_score < 70)%Q)
       ∧ (confidence_band score max_score = LOW
          ↔ (percentage score max_score < 40)%Q))
  ∧ (let r := classify (request ["dryness"] "none" "monthly" [] []) in
     condition_label r = "dry_scalp" ∧ confidence_level r = "moderate").
Proof.
  split; [|split].
  - intros data d. destruct (classify_base data) as (_ & _ & ->). fold d.
    pose proof (run_decision_tree_first_clearing d) as H.
    destruct (first_clearing d) as [sp|] eqn:Hsp; [|by rewrite H].
    destruct H as (_ & _ & _ & ->).
    apply first_clearing_spec in Hsp as [Hin _].
    pose proof (rule_confidence_exact d sp Hin) as Hex.
    destruct (rule_max_score sp) as [max_score|] eqn:Hmax; [|done].
    destruct Hex as [Hne Hex]. split; [done|]. split; [|done].
    unfold rule_confidence. by rewrite Hmax.
  - apply confidence_band_spec.
  - vm_compute. split; reflexivity.
Qed.

(** ** C7 *)

Lemma first_match_None chain d :
  Forall (λ rule, rule d = None) chain → first_match chain d = None.
Proof.
  induction 1 as [|rule chain Hrule _ IH]; [done|].
  cbn. by rewrite Hrule.
Qed.

(** C7. When all eight rules return no candidate, the decision tree returns
    the fallback record (unclear, CP-999, referral, low confidence, severity
    5, the fixed text), and [classify] returns it either unchanged or with
    the severe override applied to it (severity 8, urgent notice appended):
    a complete record that asks for a referral. *)
Theorem C7_unclear_fallback :
  ∀ data,
    let d := _parse_input data in
    let r := classify data in
    Forall (λ rule, rule d = None) rule_chain →
    _run_decision_tree d
    = {| condition_label := "unclear";
         care_plan_id := "CP-999";
         referral_required := true;
         confidence_level := "low";
         reasoning :=
           "Symptoms don't clearly match a single condition. Professional evaluation recommended for accurate diagnosis.";
         severity_score := 5 |}
    ∧ condition_label r = "unclear"
    ∧ care_plan_id r = "CP-999"
    ∧ referral_required r = true
    ∧ confidence_level r = "low"
    ∧ ((severity_score r = 5 ∧ reasoning r = unclear_reasoning)
       ∨ (severity_score r = 8
          ∧ reasoning r = unclear_reasoning +:+ urgent_notice)).
Proof.
  intros data d r Hnone.
  assert (Hbase : _run_decision_tree d = _create_unclear_result d).
  { unfold _run_decision_tree. by rewrite (first_match_None _ _ Hnone). }
  split; [by rewrite Hbase|].
  subst r. rewrite classify_unfold. fold d. rewrite Hbase.
  unfold _apply_referral_rules.
  destruct (severe_symptoms d || hair_loss_with_pain d); cbn;
    rewrite andb_false_r; cbn; repeat split; auto.
Qed.

(** A request that no rule matches and that carries no severe trigger. *)
Lemma C7_unclear_fallback_witness :
  let r := classify (request ["numbness"] "braids" "weekly" [] []) in
  condition_label r = "unclear" ∧ referral_required r = true
  ∧ confidence_level r = "low".
Proof.
  pose proof (C7_unclear_fallback
                (request ["numbness"] "braids" "weekly" [] [])) as H.
  cbv zeta in H.
  destruct H as (_ & Hl & _ & Hr & Hc & _); [|by repeat split].
  clear. unfold rule_chain. repeat constructor; vm_compute; reflexivity.
Defined.

(** ** C10 *)

(** C10. The severity returned by [classify] always lies between 2 and 8:
    every base severity does, and the override only takes the maximum with
    8.  Both ends are reached. *)
Theorem C10_severity_between_2_and_8 :
  (∀ d, 2 ≤ severity_score (_run_decision_tree d) ≤ 8)
  ∧ (∀ r d, severity_score (_apply_referral_rules r d)
            ≤ Z.max (severity_score r) 8)
  ∧ (∀ data, 2 ≤ severity_score (classify data) ≤ 8)
  ∧ severity_score (classify (request ["dryness"] "none" "monthly" [] [])) = 2
  ∧ severity_score (classify (request ["bumps"; "pain"] "braids" "weekly" [] []))
    = 8.
Proof.
  split; [intros d; apply run_decision_tree_shape|].
  split; [intros r d; apply apply_referral_rules_raises|].
  split; [apply classify_severity_range|].
  split; vm_compute; reflexivity.
Qed.

(** ** C4 *)

Lemma parse_with_symptoms data syms :
  _parse_input (with_symptoms data syms)
  = {| symptoms := map normalize syms;
       style_type := style_type (_parse_input data);
       wash_frequency := wash_frequency (_parse_input data);
       product_use := product_use (_parse_input data);
       known_issues := known_issues (_parse_input data);
       image_uploaded := image_uploaded (_parse_input data) |}.
Proof. reflexivity. Qed.

Lemma parse_with_product_use data products :
  _parse_input (with_product_use data products)
  = {| symptoms := symptoms (_parse_input data);
       style_type := style_type (_parse_input data);
       wash_frequency := wash_frequency (_parse_input data);
       product_use := map normalize products;
       known_issues := known_issues (_parse_input data);
       image_uploaded := image_uploaded (_parse_input data) |}.
Proof. reflexivity. Qed.

(** C4. Take an input whose result is not a referral and insert, anywhere
    in its symptoms, a token that normalizes to one of bleeding, pus, oozing,
    crusting, severe, worsening, spreading, fever.  The new result is a
    referral, and its severity (at least 8) is not below the severity of the
    original result, whichever rule now matches. *)
Theorem C4_override_monotone :
  ∀ data (before after : list string) tok,
    default [] (get_symptoms data) = (before ++ after)%list →
    normalize tok ∈ ["bleeding"; "pus"; "oozing"; "crusting"; "severe";
                     "worsening"; "spreading"; "fever"] →
    referral_required (classify data) = false →
    let r := classify data in
    let r' :=
      classify (with_symptoms data (before ++ tok :: after)%list) in
    referral_required r' = true
    ∧ severity_score r ≤ severity_score r'
    ∧ 8 ≤ severity_score r'.
Proof.
  intros data before after tok _ Htok _ r r'.
  set (d' := _parse_input (with_symptoms data (before ++ tok :: after)%list)).
  assert (Hurgent : severe_symptoms d' || hair_loss_with_pain d' = true).
  { apply orb_true_iff. left. apply (any_in_elem (normalize tok)); [done|].
    subst d'. rewrite parse_with_symptoms. cbn [symptoms].
    apply list_elem_of_fmap. exists tok. split; [done|].
    apply elem_of_app. right. by left. }
  pose proof (classify_severity_range data) as Hr. fold r in Hr.
  clearbody r. subst r'. rewrite classify_unfold. fold d'.
  rewrite (apply_referral_rules_urgent _ d' Hurgent). cbn.
  repeat split; lia.
Qed.

(** Example 1 (seborrheic dermatitis, no referral, severity 4) with a fever
    token appended. *)
Lemma C4_override_monotone_witness :
  let data := request ["itching"; "flaking"] "natural" "weekly" ["oil"] [] in
  let data' :=
    with_symptoms data (["itching"; "flaking"] ++ "fever" :: [])%list in
  referral_required (classify data) = false
  ∧ referral_required (classify data') = true
  ∧ severity_score (classify data) ≤ severity_score (classify data').
Proof.
  cbv zeta. split; [vm_compute; reflexivity|].
  pose proof (C4_override_monotone
                (request ["itching"; "flaking"] "natural" "weekly" ["oil"] [])
                ["itching"; "flaking"] [] "fever") as H.
  cbv zeta in H.
  destruct H as (Hr & Hs & _);
    [vm_compute; reflexivity | decide_by_eval | vm_compute; reflexivity |].
  split; [exact Hr | exact Hs].
Defined.

(** ** Inputs that no rule can tell apart *)

Lemma intersects_true items fact_set :
  intersects items fact_set = true ↔ ∃ t, t ∈ items ∧ t ∈ fact_set.
Proof.
  unfold intersects. rewrite bool_decide_eq_true. split.
  - intros Hne. apply set_choose_L in Hne as [t Ht].
    apply elem_of_intersection in Ht as [Ht1 Ht2].
    apply elem_of_list_to_set in Ht1. eauto.
  - intros (t & Ht1 & Ht2) Hempty.
    assert (Ht : t ∈ (list_to_set items : gset string) ∩ fact_set).
    { apply elem_of_intersection. split; [by apply elem_of_list_to_set | done]. }
    rewrite Hempty in Ht. by apply not_elem_of_empty in Ht.
Qed.

Section Agreement.
Context (d d' : TriageInput) (Hsame : same_indicators d d').

Lemma agree_any_in tokens :
  forallb (λ t, bool_decide (t ∈ symptom_tokens)) tokens = true →
  any_in tokens (symptoms d) = any_in tokens (symptoms d').
Proof.
  intros Hsub. apply any_in_agree. intros t Ht.
  apply (agree_symptoms _ _ Hsame). by eapply tokens_sub.
Qed.

Lemma agree_mem t :
  bool_decide (t ∈ symptom_tokens) = true →
  bool_decide (t ∈ symptoms d) = bool_decide (t ∈ symptoms d').
Proof.
  intros Ht. apply bool_decide_ext, (agree_symptoms _ _ Hsame).
  by apply bool_decide_eq_true in Ht.
Qed.

Lemma agree_known_any_in tokens :
  forallb (λ t, bool_decide (t ∈ known_issue_tokens)) tokens = true →
  any_in tokens (known_issues d) = any_in tokens (known_issues d').
Proof.
  intros Hsub. apply any_in_agree. intros t Ht.
  apply (agree_known _ _ Hsame). by eapply tokens_sub.
Qed.

Lemma agree_known_mem t :
  bool_decide (t ∈ known_issue_tokens) = true →
  bool_decide (t ∈ known_issues d) = bool_decide (t ∈ known_issues d').
Proof.
  intros Ht. apply bool_decide_ext, (agree_known _ _ Hsame).
  by apply bool_decide_eq_true in Ht.
Qed.

Lemma agree_heavy_products : uses_heavy_products d = uses_heavy_products d'.
Proof.
  unfold uses_heavy_products.
  destruct (intersects (product_use d) HEAVY_PRODUCTS) eqn:E;
    destruct (intersects (product_use d') HEAVY_PRODUCTS) eqn:E'; try done.
  - apply intersects_true in E as (t & Ht & Hh).
    apply (agree_heavy _ _ Hsame t Hh) in Ht.
    rewrite <- E'. symmetry. apply intersects_true. eauto.
  - apply intersects_true in E' as (t & Ht & Hh).
    apply (agree_heavy _ _ Hsame t Hh) in Ht.
    rewrite <- E. apply intersects_true. eauto.
Qed.

Ltac agree :=
  rewrite ?(agree_style _ _ Hsame), ?(agree_wash _ _ Hsame),
    ?(agree_oil _ _ Hsame), ?(agree_minimal _ _ Hsame),
    ?(agree_multiple _ _ Hsame), ?agree_heavy_products;
  repeat (rewrite agree_any_in by (vm_compute; reflexivity));
  repeat (rewrite agree_mem by (vm_compute; reflexivity));
  repeat (rewrite agree_known_any_in by (vm_compute; reflexivity));
  repeat (rewrite agree_known_mem by (vm_compute; reflexivity));
  reflexivity.

Lemma agree_folliculitis : _check_folliculitis d = _check_folliculitis d'.
Proof.
  unfold _check_folliculitis, folliculitis_score, folliculitis_has_bumps,
    folliculitis_has_pain, has_protective_style,
    folliculitis_has_inflammation.
  agree.
Qed.

Lemma agree_psoriasis : _check_psoriasis d = _check_psoriasis d'.
Proof.
  unfold _check_psoriasis, psoriasis_score, psoriasis_has_scales,
    psoriasis_has_dryness, known_psoriasis, psoriasis_has_itching.
  agree.
Qed.

Lemma agree_tension_damage :
  _check_tension_damage d = _check_tension_damage d'.
Proof.
  unfold _check_tension_damage, tension_score, tension_has_tenderness,
    has_protective_style, tension_has_hair_loss, tension_has_bumps.
  agree.
Qed.

Lemma agree_seborrheic_dermatitis :
  _check_seborrheic_dermatitis d = _check_seborrheic_dermatitis d'.
Proof.
  unfold _check_seborrheic_dermatitis, seborrheic_score,
    seborrheic_needs_referral, seborrheic_has_itching,
    seborrheic_has_flaking, seborrheic_has_oily, seborrheic_has_redness.
  agree.
Qed.

Lemma agree_contact_dermatitis :
  _check_contact_dermatitis d = _check_contact_dermatitis d'.
Proof.
  unfold _check_contact_dermatitis, contact_score, contact_has_itching,
    contact_has_redness, contact_has_bumps, recent_change.
  agree.
Qed.

Lemma agree_scalp_acne : _check_scalp_acne d = _check_scalp_acne d'.
Proof.
  unfold _check_scalp_acne, acne_score, acne_has_bumps, acne_has_oily,
    no_pain, not_protective_style.
  agree.
Qed.

Lemma agree_product_buildup :
  _check_product_buildup d = _check_product_buildup d'.
Proof.
  unfold _check_product_buildup, buildup_score, buildup_has_flaking,
    low_wash, buildup_has_itching.
  agree.
Qed.

Lemma agree_dry_scalp : _check_dry_scalp d = _check_dry_scalp d'.
Proof.
  unfold _check_dry_scalp, dry_score, dry_has_dryness, low_wash.
  agree.
Qed.

Lemma agree_run_decision_tree :
  _run_decision_tree d = _run_decision_tree d'.
Proof.
  unfold _run_decision_tree, rule_chain. cbn [first_match].
  by rewrite agree_folliculitis, agree_psoriasis, agree_tension_damage,
    agree_seborrheic_dermatitis, agree_contact_dermatitis,
    agree_scalp_acne, agree_product_buildup, agree_dry_scalp.
Qed.

Lemma agree_apply_referral_rules r :
  _apply_referral_rules r d = _apply_referral_rules r d'.
Proof.
  unfold _apply_referral_rules, severe_symptoms, hair_loss_with_pain,
    known_chronic_condition.
  agree.
Qed.
End Agreement.

Lemma classify_agree data data' :
  same_indicators (_parse_input data) (_parse_input data') →
  classify data = classify data'.
Proof.
  intros H. rewrite !classify_unfold.
  by rewrite (agree_run_decision_tree _ _ H),
    (agree_apply_referral_rules _ _ H).
Qed.

(** ** Inserting a token, and replacing a sequence by one with the same
    tokens *)

Lemma elem_of_insert_ne (before after : list string) (x t : string) :
  t ≠ x → t ∈ (before ++ x :: after)%list ↔ t ∈ (before ++ after)%list.
Proof.
  intros Hne. rewrite !elem_of_app, elem_of_cons. tauto.
Qed.

Lemma existsb_same_elements (f : string → bool) (l l' : list string) :
  (∀ t, t ∈ l ↔ t ∈ l') → existsb f l = existsb f l'.
Proof.
  intros H. apply eq_true_iff_eq. rewrite !existsb_exists.
  split; intros (t & Ht & Hf); exists t; (split; [|done]);
    apply list_elem_of_In in Ht; apply list_elem_of_In; by apply H.
Qed.

Lemma map_same_elements (f : string → string) (l l' : list string) :
  (∀ t, t ∈ l ↔ t ∈ l') → ∀ t, t ∈ map f l ↔ t ∈ map f l'.
Proof.
  intros H t. rewrite !list_elem_of_In, !in_map_iff.
  split; intros (x & Hx & Hin); exists x; (split; [done|]);
    apply list_elem_of_In in Hin; apply list_elem_of_In; by apply H.
Qed.

Lemma same_indicators_refl d : same_indicators d d.
Proof. by split. Qed.

(** An unrecognized token inserted in the symptoms, when the sequence does
    not have exactly two tokens. *)
Lemma same_indicators_insert_symptom data (before after : list string) tok :
  default [] (get_symptoms data) = (before ++ after)%list →
  normalize tok ∉ symptom_tokens →
  length (before ++ after)%list ≠ 2%nat →
  same_indicators
    (_parse_input (with_symptoms data (before ++ tok :: after)%list))
    (_parse_input data).
Proof.
  intros Hsyms Htok Hlen. rewrite parse_with_symptoms.
  split; cbn [symptoms style_type wash_frequency product_use known_issues];
    try done.
  - intros t Ht. unfold _parse_input. cbn [symptoms]. rewrite Hsyms.
    rewrite !map_app, map_cons. apply elem_of_insert_ne. congruence.
  - unfold minimal_symptoms, len, _parse_input. cbn [symptoms].
    rewrite Hsyms, !length_map. rewrite !length_app in *. cbn [length] in *.
    destruct (Z.leb_spec (Z.of_nat (length before + S (length after))) 2),
      (Z.leb_spec (Z.of_nat (length before + length after)) 2);
      first [reflexivity | lia].
Qed.

(** An unrecognized product inserted in the products, when the sequence does
    not have exactly two products and the "oil" test is not flipped. *)
Lemma same_indicators_insert_product data (before after : list string) tok :
  default [] (get_product_use data) = (before ++ after)%list →
  normalize tok ∉ HEAVY_PRODUCTS →
  length (before ++ after)%list ≠ 2%nat →
  str_contains "oil" (normalize tok) = false
  ∨ uses_oil (_parse_input data) = true →
  same_indicators
    (_parse_input (with_product_use data (before ++ tok :: after)%list))
    (_parse_input data).
Proof.
  intros Hprods Htok Hlen Hoil. rewrite parse_with_product_use.
  split; cbn [symptoms style_type wash_frequency product_use known_issues];
    try done.
  - intros t Ht. unfold _parse_input. cbn [product_use]. rewrite Hprods.
    rewrite !map_app, map_cons. apply elem_of_insert_ne. congruence.
  - revert Hoil. unfold uses_oil, _parse_input. cbn [product_use].
    rewrite Hprods, !map_app, map_cons, !existsb_app. cbn [existsb].
    destruct (existsb (str_contains "oil") (map normalize before)),
      (existsb (str_contains "oil") (map normalize after)),
      (str_contains "oil" (normalize tok)); cbn; intros [?|?];
      first [reflexivity | discriminate].
  - unfold multiple_products, len, _parse_input. cbn [product_use].
    rewrite Hprods, !length_map. rewrite !length_app in *. cbn [length] in *.
    destruct (Z.leb_spec 3 (Z.of_nat (length before + S (length after)))),
      (Z.leb_spec 3 (Z.of_nat (length before + length after)));
      first [reflexivity | lia].
Qed.

(** Sequences with the same tokens and the same answers to the two length
    tests. *)
Lemma same_indicators_same_tokens data (syms' prods' : list string) :
  (∀ t, t ∈ default [] (get_symptoms data) ↔ t ∈ syms') →
  (∀ t, t ∈ default [] (get_product_use data) ↔ t ∈ prods') →
  (length (default [] (get_symptoms data)) ≤ 2 ↔ length syms' ≤ 2)%nat →
  (3 ≤ length (default [] (get_product_use data)) ↔ 3 ≤ length prods')%nat →
  same_indicators
    (_parse_input (with_product_use (with_symptoms data syms') prods'))
    (_parse_input data).
Proof.
  intros Hsyms Hprods Hlen2 Hlen3.
  rewrite parse_with_product_use, parse_with_symptoms.
  split; cbn [symptoms style_type wash_frequency product_use known_issues];
    try done.
  - intros t _. symmetry. by apply map_same_elements.
  - intros t _. symmetry. by apply map_same_elements.
  - unfold uses_oil, _parse_input. cbn [product_use]. symmetry.
    by apply existsb_same_elements, map_same_elements.
  - unfold minimal_symptoms, len, _parse_input. cbn [symptoms].
    rewrite !length_map.
    destruct (Z.leb_spec (Z.of_nat (length syms')) 2),
      (Z.leb_spec (Z.of_nat (length (default [] (get_symptoms data)))) 2);
      first [reflexivity | lia].
  - unfold multiple_products, len, _parse_input. cbn [product_use].
    rewrite !length_map.
    destruct (Z.leb_spec 3 (Z.of_nat (length prods'))),
      (Z.leb_spec 3 (Z.of_nat (length (default [] (get_product_use data)))));
      first [reflexivity | lia].
Qed.

(** ** C8 *)

(** C8, as stated, fails: numbness occurs in no token list and in no fact
    set, yet as a third symptom it switches off the minimal-symptoms
    indicator of the dry-scalp rule; shampoo as a third product switches on
    the multiple-products indicator of the product-buildup rule; coconut_oil
    switches on the "oil" substring test. *)
Lemma C8_unrecognized_token_counterexample :
  (let data := request ["itching"; "redness"] "none" "monthly" [] [] in
   let data' := with_symptoms data ["itching"; "redness"; "numbness"] in
   recognized (normalize "numbness") = false
   ∧ condition_label (classify data) = "dry_scalp"
   ∧ condition_label (classify data') = "unclear"
   ∧ classify data' ≠ classify data)
  ∧ (let data :=
       request ["buildup"] "none" "weekly" ["conditioner"; "leave_in"] [] in
     let data' :=
       with_product_use data ["conditioner"; "leave_in"; "shampoo"] in
     recognized (normalize "shampoo") = false
     ∧ condition_label (classify data) = "unclear"
     ∧ condition_label (classify data') = "product_buildup"
     ∧ classify data' ≠ classify data)
  ∧ (let data := request ["itching"] "none" "monthly" [] [] in
     let data' := with_product_use data ["coconut_oil"] in
     recognized (normalize "coconut_oil") = false
     ∧ condition_label (classify data) = "dry_scalp"
     ∧ condition_label (classify data') = "unclear"
     ∧ classify data' ≠ classify data).
Proof.
  repeat split; try (vm_compute; reflexivity);
    intros H; apply (f_equal condition_label) in H;
    vm_compute in H; discriminate H.
Qed.

Lemma unrecognized_not_token t :
  recognized t = false → (t ∉ symptom_tokens) ∧ (t ∉ HEAVY_PRODUCTS).
Proof.
  unfold recognized. rewrite !orb_false_iff, !bool_decide_eq_false. tauto.
Qed.

(** C8, amended. A token that normalizes to none of the indicator tokens and
    to no member of a fact set, inserted anywhere in the symptoms, leaves the
    output of [classify] unchanged provided the symptoms did not hold exactly
    two tokens (so that the test len(symptoms) <= 2 keeps its answer);
    inserted anywhere in product_use, it leaves the output unchanged provided
    product_use did not hold exactly two tokens (so that len(product_use) >= 3
    keeps its answer) and the token does not contain "oil" unless a product
    already does. *)
Theorem C8_unrecognized_token_inert :
  (∀ data (before after : list string) tok,
     default [] (get_symptoms data) = (before ++ after)%list →
     recognized (normalize tok) = false →
     length (before ++ after)%list ≠ 2%nat →
     classify (with_symptoms data (before ++ tok :: after)%list)
     = classify data)
  ∧ (∀ data (before after : list string) tok,
       default [] (get_product_use data) = (before ++ after)%list →
       recognized (normalize tok) = false →
       length (before ++ after)%list ≠ 2%nat →
       str_contains "oil" (normalize tok) = false
       ∨ uses_oil (_parse_input data) = true →
       classify (with_product_use data (before ++ tok :: after)%list)
       = classify data).
Proof.
  split.
  - intros data before after tok Hsyms Htok Hlen.
    apply classify_agree, same_indicators_insert_symptom; try done.
    by apply unrecognized_not_token.
  - intros data before after tok Hprods Htok Hlen Hoil.
    apply classify_agree, same_indicators_insert_product; try done.
    by apply unrecognized_not_token.
Qed.

Lemma C8_unrecognized_token_inert_witness :
  (let data := request ["itching"; "flaking"; "redness"]
                       "natural" "weekly" ["oil"] [] in
   classify (with_symptoms data ["itching"; "Numbness "; "flaking"; "redness"])
   = classify data)
  ∧ (let data := request ["itching"] "none" "monthly" ["oil"] [] in
     classify (with_product_use data ["oil"; "coconut_oil"]) = classify data).
Proof.
  split; cbv zeta.
  - apply (proj1 C8_unrecognized_token_inert
             (request ["itching"; "flaking"; "redness"]
                      "natural" "weekly" ["oil"] [])
             ["itching"] ["flaking"; "redness"] "Numbness ").
    + reflexivity.
    + vm_compute. reflexivity.
    + cbn. lia.
  - apply (proj2 C8_unrecognized_token_inert
             (request ["itching"] "none" "monthly" ["oil"] [])
             ["oil"] [] "coconut_oil").
    + reflexivity.
    + vm_compute. reflexivity.
    + cbn. lia.
    + right. vm_compute. reflexivity.
Defined.

(** ** C9 *)

(** C9, as stated, fails: a repeated token changes len(symptoms), and with
    it the minimal-symptoms indicator of the dry-scalp rule; a repeated
    product changes len(product_use), and with it the multiple-products
    indicator of the product-buildup rule. *)
Lemma C9_duplicate_token_counterexample :
  (let data := request ["itching"; "redness"] "none" "monthly" [] [] in
   let data' := with_symptoms data ["itching"; "redness"; "itching"] in
   (∀ t, t ∈ ["itching"; "redness"] ↔ t ∈ ["itching"; "redness"; "itching"])
   ∧ condition_label (classify data) = "dry_scalp"
   ∧ condition_label (classify data') = "unclear"
   ∧ classify data' ≠ classify data)
  ∧ (let data :=
       request ["buildup"] "none" "weekly" ["conditioner"; "leave_in"] [] in
     let data' :=
       with_product_use data ["conditioner"; "leave_in"; "leave_in"] in
     (∀ t, t ∈ ["conditioner"; "leave_in"]
           ↔ t ∈ ["conditioner"; "leave_in"; "leave_in"])
     ∧ condition_label (classify data) = "unclear"
     ∧ condition_label (classify data') = "product_buildup"
     ∧ classify data' ≠ classify data).
Proof.
  repeat split; try (vm_compute; reflexivity);
    try (rewrite !elem_of_cons, !elem_of_nil; tauto);
    intros H; apply (f_equal condition_label) in H;
    vm_compute in H; discriminate H.
Qed.

(** C9, amended. Replacing symptoms and product_use by sequences that hold
    the same tokens leaves the output of [classify] unchanged whenever the two
    length tests keep their answers: len(symptoms) <= 2 and
    len(product_use) >= 3 hold for the new sequences exactly when they hold
    for the old ones.  In particular the output does not depend on the order
    of the tokens. *)
Theorem C9_same_tokens_same_length_tests :
  (∀ data (syms' prods' : list string),
     let syms := default [] (get_symptoms data) in
     let prods := default [] (get_product_use data) in
     (∀ t, t ∈ syms ↔ t ∈ syms') →
     (∀ t, t ∈ prods ↔ t ∈ prods') →
     (length syms ≤ 2 ↔ length syms' ≤ 2)%nat →
     (3 ≤ length prods ↔ 3 ≤ length prods')%nat →
     classify (with_product_use (with_symptoms data syms') prods')
     = classify data)
  ∧ (∀ data (syms' prods' : list string),
       default [] (get_symptoms data) ≡ₚ syms' →
       default [] (get_product_use data) ≡ₚ prods' →
       classify (with_product_use (with_symptoms data syms') prods')
       = classify data).
Proof.
  split.
  - intros data syms' prods' syms prods Hsyms Hprods Hlen2 Hlen3.
    by apply classify_agree, same_indicators_same_tokens.
  - intros data syms' prods' Hsyms Hprods.
    apply classify_agree, same_indicators_same_tokens.
    + intros t. by rewrite Hsyms.
    + intros t. by rewrite Hprods.
    + by rewrite (Permutation_length Hsyms).
    + by rewrite (Permutation_length Hprods).
Qed.

Lemma C9_same_tokens_same_length_tests_witness :
  (let data := request ["itching"; "flaking"; "redness"]
                       "natural" "weekly" ["oil"] [] in
   classify (with_product_use
               (with_symptoms data ["redness"; "flaking"; "itching"; "itching"])
               ["oil"; "oil"])
   = classify data)
  ∧ (let data := request ["bumps"; "pain"] "braids" "weekly" ["gel"; "oil"] [] in
     classify (with_product_use (with_symptoms data ["pain"; "bumps"])
                                ["oil"; "gel"])
     = classify data).
Proof.
  split; cbv zeta.
  - apply (proj1 C9_same_tokens_same_length_tests
             (request ["itching"; "flaking"; "redness"]
                      "natural" "weekly" ["oil"] [])).
    + intros t. cbn. rewrite !elem_of_cons, !elem_of_nil. tauto.
    + intros t. cbn. rewrite !elem_of_cons, !elem_of_nil. tauto.
    + cbn. lia.
    + cbn. lia.
  - apply (proj2 C9_same_tokens_same_length_tests
             (request ["bumps"; "pain"] "braids" "weekly" ["gel"; "oil"] [])).
    + cbn. apply perm_swap.
    + cbn. apply perm_swap.
Defined.

(** * Further properties of the engine *)

(** ** What each rule writes into its result *)

Lemma run_decision_tree_policy d :
  ∃ l, condition_label (_run_decision_tree d) = ConditionLabel_value l
       ∧ referral_required (_run_decision_tree d) = (base_policy l d).1
       ∧ severity_score (_run_decision_tree d) = (base_policy l d).2.
Proof.
  unfold _run_decision_tree, rule_chain. cbn [first_match].
  unfold _check_folliculitis.
  destruct (5 <=? folliculitis_score d); [by exists FOLLICULITIS|].
  unfold _check_psoriasis.
  destruct (5 <=? psoriasis_score d); [by exists PSORIASIS|].
  unfold _check_tension_damage.
  destruct ((5 <=? tension_score d) && negb (tension_has_bumps d));
    [by exists TENSION_DAMAGE|].
  unfold _check_seborrheic_dermatitis.
  destruct (4 <=? seborrheic_score d); [by exists SEBORRHEIC_DERMATITIS|].
  unfold _check_contact_dermatitis.
  destruct (4 <=? contact_score d); [by exists CONTACT_DERMATITIS|].
  unfold _check_scalp_acne.
  destruct (4 <=? acne_score d); [by exists SCALP_ACNE|].
  unfold _check_product_buildup.
  destruct (4 <=? buildup_score d); [by exists PRODUCT_BUILDUP|].
  unfold _check_dry_scalp.
  destruct (3 <=? dry_score d); [by exists DRY_SCALP|].
  by exists UNCLEAR.
Qed.

Lemma append_empty s : s +:+ EmptyString = s.
Proof.
  induction s as [|c s IH]; [done|].
  change (String c (s +:+ EmptyString) = String c s). by rewrite IH.
Qed.

(** Referral, severity and reasoning of the final result, from the base
    result and the three indicators of the override. *)
Lemma apply_referral_rules_exact r d :
  let r' := _apply_referral_rules r d in
  referral_required r'
  = referral_required r || severe_symptoms d || hair_loss_with_pain d
    || known_chronic_condition d
  ∧ severity_score r'
    = (if severe_symptoms d || hair_loss_with_pain d
       then Z.max (severity_score r) 8 else severity_score r)
  ∧ reasoning r' = reasoning r +:+ appended_notice (referral_required r) d.
Proof.
  unfold _apply_referral_rules, appended_notice.
  destruct r as [l cp ref conf text sev].
  destruct (severe_symptoms d), (hair_loss_with_pain d),
    (known_chronic_condition d), ref; cbn;
    rewrite ?append_empty; done.
Qed.

(** The severe tokens that make the seborrheic rule refer are severe
    triggers of the override, and eczema is a chronic condition. *)
Lemma seborrheic_needs_referral_override d :
  seborrheic_needs_referral d = true →
  severe_symptoms d || known_chronic_condition d = true.
Proof.
  unfold seborrheic_needs_referral. intros H.
  apply orb_true_iff in H as [H | H]; apply orb_true_iff; [left | right].
  - revert H. apply any_in_mono. sub_tokens.
  - apply bool_decide_eq_true in H.
    apply (any_in_elem "eczema"); [decide_by_eval | done].
Qed.

(** Referral and severity of the final result from its label. *)
Lemma classify_policy :
  ∀ data,
    let d := _parse_input data in
    let r := classify data in
    ∃ l, condition_label r = ConditionLabel_value l
         ∧ referral_required r
           = (base_policy l d).1 || severe_symptoms d
             || hair_loss_with_pain d || known_chronic_condition d
         ∧ severity_score r
           = (if severe_symptoms d || hair_loss_with_pain d then 8
              else (base_policy l d).2).
Proof.
  intros data d r. subst r. rewrite classify_unfold. fold d.
  destruct (run_decision_tree_policy d) as (l & Hl & Href & Hsev).
  destruct (apply_referral_rules_keeps (_run_decision_tree d) d) as (Hkl & _).
  destruct (apply_referral_rules_exact (_run_decision_tree d) d)
    as (Hr & Hs & _).
  exists l. rewrite Hkl, Hr, Hs, Href, Hsev. repeat split; [done|].
  destruct (severe_symptoms d || hair_loss_with_pain d); [|done].
  pose proof (run_decision_tree_shape d) as (_ & _ & Hrange).
  rewrite Hsev in Hrange. lia.
Qed.

(** X1. The referral flag and the severity of the result are functions of
    its label and of the override indicators: the label fixes the base
    referral and severity (folliculitis true/8, psoriasis and tension damage
    true/7, contact dermatitis false/4, scalp acne false/3, product buildup
    and dry scalp false/2, unclear true/5, seborrheic dermatitis true/6 when
    it needs a referral and false/4 otherwise); a severe trigger turns the
    severity into exactly 8; a severe trigger or a known chronic condition
    turns the referral on. *)
Theorem referral_and_severity_by_label :
  ∀ data,
    let d := _parse_input data in
    let r := classify data in
    ∃ l, condition_label r = ConditionLabel_value l
         ∧ referral_required r
           = (base_policy l d).1 || severe_symptoms d
             || hair_loss_with_pain d || known_chronic_condition d
         ∧ severity_score r
           = (if severe_symptoms d || hair_loss_with_pain d then 8
              else (base_policy l d).2).
Proof. exact classify_policy. Qed.

(** X2. A result that is not a referral has one of the five labels
    seborrheic_dermatitis, contact_dermatitis, scalp_acne, product_buildup,
    dry_scalp and a severity of at most 4; so every result of severity 5 or
    more is a referral. *)
Theorem no_referral_is_mild :
  ∀ data,
    let r := classify data in
    (referral_required r = false →
     condition_label r
       ∈ [ "seborrheic_dermatitis"; "contact_dermatitis"; "scalp_acne";
           "product_buildup"; "dry_scalp" ]
     ∧ severity_score r ≤ 4)
    ∧ (5 ≤ severity_score r → referral_required r = true).
Proof.
  intros data r.
  assert (H : referral_required r = false →
    condition_label r
      ∈ [ "seborrheic_dermatitis"; "contact_dermatitis"; "scalp_acne";
          "product_buildup"; "dry_scalp" ]
    ∧ severity_score r ≤ 4).
  { destruct (classify_policy data) as (l & Hl & Hr & Hs).
    fold r in Hl, Hr, Hs. rewrite Hl, Hr, Hs. clear Hl Hr Hs.
    set (d := _parse_input data).
    intros H. rewrite !orb_false_iff in H. destruct H as (((Hb & ->) & ->) & _).
    cbn [orb]. destruct l; cbn in Hb |- *; try discriminate Hb;
      (split; [decide_by_eval|]); rewrite ?Hb; cbn; lia. }
  split; [exact H|].
  intros Hsev. destruct (referral_required r) eqn:E; [done|].
  destruct (H eq_refl). lia.
Qed.

Lemma no_referral_is_mild_witness :
  let r := classify (request ["itching"; "flaking"] "natural" "weekly" ["oil"] []) in
  condition_label r
    ∈ [ "seborrheic_dermatitis"; "contact_dermatitis"; "scalp_acne";
        "product_buildup"; "dry_scalp" ]
  ∧ severity_score r ≤ 4.
Proof.
  apply (no_referral_is_mild
           (request ["itching"; "flaking"] "natural" "weekly" ["oil"] [])).
  vm_compute. reflexivity.
Defined.

(** ** The known-condition branch of the override *)

(** X3. With psoriasis, eczema, lupus or autoimmune among the known issues
    the result is always a referral.  When no severe trigger is present the
    severity stays the base severity, and the monitoring notice is appended
    to the reasoning exactly when the base result was not a referral
    already; the urgent notice and the monitoring notice never come
    together. *)
Theorem known_condition_referred :
  ∀ data,
    let d := _parse_input data in
    let base := _run_decision_tree d in
    let r := classify data in
    (∃ t, t ∈ ["psoriasis"; "eczema"; "lupus"; "autoimmune"]
          ∧ t ∈ known_issues d) →
    referral_required r = true
    ∧ (severe_symptoms d || hair_loss_with_pain d = false →
       severity_score r = severity_score base
       ∧ reasoning r
         = reasoning base
           +:+ (if referral_required base then EmptyString
                else " Note: Known condition warrants professional monitoring."))
    ∧ (severe_symptoms d || hair_loss_with_pain d = true →
       reasoning r
       = reasoning base
         +:+ " URGENT: Severe symptoms require immediate professional evaluation.").
Proof.
  intros data d base r Hknown.
  assert (Hc : known_chronic_condition d = true) by by apply any_in_true.
  subst r. rewrite classify_unfold. fold d. fold base.
  destruct (apply_referral_rules_exact base d) as (Hr & Hs & Ht).
  rewrite Hr, Hs, Ht, Hc. unfold appended_notice. rewrite Hc.
  split; [by rewrite !orb_true_r|].
  split; intros ->; [|done].
  split; [done|]. by destruct (referral_required base).
Qed.

(** Contact dermatitis (base severity 4, no base referral) with a known
    lupus: referred, severity still 4, monitoring notice appended. *)
Lemma known_condition_referred_witness :
  let r := classify (request ["itching"; "redness"; "rash"]
                             "natural" "weekly" [] ["Lupus"]) in
  referral_required r = true ∧ severity_score r = 4
  ∧ condition_label r = "contact_dermatitis".
Proof.
  pose proof (known_condition_referred
                (request ["itching"; "redness"; "rash"]
                         "natural" "weekly" [] ["Lupus"])) as H.
  cbv zeta in H. destruct H as (Hr & Hno & _).
  - exists "lupus". split; decide_by_eval.
  - destruct Hno as (Hs & _); [vm_compute; reflexivity|].
    cbv zeta. rewrite Hr, Hs. clear. vm_compute. repeat split; reflexivity.
Defined.

(** ** Confidence of a matched rule *)

Lemma calculate_confidence_not_low score threshold max_score :
  (threshold, max_score)
    ∈ [(5, 10); (5, 12); (5, 11); (4, 10); (4, 7); (4, 8)] →
  threshold ≤ score ≤ max_score →
  _calculate_confidence score max_score ≠ "low".
Proof.
  intros Hpair Hs.
  assert (H0 : 0 ≤ score ≤ 12).
  { repeat (apply elem_of_cons in Hpair as [[= -> ->] | Hpair]);
      [..| inversion Hpair]; lia. }
  destruct (small_score score 12 H0) as (n & Hn & ->).
  repeat (apply elem_of_cons in Hpair as [[= -> ->] | Hpair]);
    [..| inversion Hpair];
    do 13 (destruct n as [|n];
           [first [by vm_compute | exfalso; lia]|]);
    lia.
Qed.

Lemma rule_confidence_not_low d sp :
  sp ∈ rule_specs → rule_threshold sp ≤ rule_score sp d →
  rule_confidence sp d ≠ "low" ∧ ConditionLabel_value (rule_label sp) ≠ "unclear".
Proof.
  intros Hin. unfold rule_specs in Hin.
  repeat (apply elem_of_cons in Hin as [-> | Hin]); [..| inversion Hin];
    cbn [rule_threshold rule_score rule_label]; intros Hthr;
    (split; [|by vm_compute]);
    unfold rule_confidence; cbn [rule_max_score rule_score];
    try (eapply calculate_confidence_not_low; cycle 1;
         [split; [exact Hthr|] | decide_by_eval]).
  - pose proof (folliculitis_score_range d). lia.
  - pose proof (psoriasis_score_range d). lia.
  - pose proof (tension_score_range d). lia.
  - pose proof (seborrheic_score_range d). lia.
  - pose proof (contact_score_range d). lia.
  - pose proof (acne_score_range d). lia.
  - pose proof (buildup_score_range d). lia.
  - by vm_compute.
Qed.

(** X4. A matched rule never reports low confidence: its score is at least
    its threshold, which is 40 percent or more of its max_score.  So the
    confidence of a result is low exactly when its label is unclear. *)
Theorem low_confidence_iff_unclear :
  ∀ data,
    confidence_level (classify data) = "low"
    ↔ condition_label (classify data) = "unclear".
Proof.
  intros data. destruct (classify_base data) as (-> & _ & ->).
  set (d := _parse_input data).
  pose proof (run_decision_tree_first_clearing d) as H.
  destruct (first_clearing d) as [sp|] eqn:Hsp.
  - destruct H as (_ & -> & _ & ->).
    apply first_clearing_spec in Hsp as [Hin Hthr].
    destruct (rule_confidence_not_low d sp Hin Hthr). tauto.
  - rewrite H. by cbn.
Qed.

(** ** Inputs that one indicator decides *)

Lemma classify_label_first_clearing data :
  condition_label (classify data)
  = ConditionLabel_value
      (from_option rule_label UNCLEAR (first_clearing (_parse_input data))).
Proof.
  destruct (classify_base data) as (-> & _).
  pose proof (run_decision_tree_first_clearing (_parse_input data)) as H.
  destruct (first_clearing (_parse_input data)) as [sp|]; cbn.
  - apply H.
  - by rewrite H.
Qed.

(** X5. A known psoriasis history is enough for the psoriasis rule, with or
    without a single matching symptom: the result is labelled psoriasis,
    unless the folliculitis rule matched before it, and in both cases it is a
    referral of severity 7 or 8. *)
Theorem known_psoriasis_decides :
  ∀ data,
    let d := _parse_input data in
    let r := classify data in
    "psoriasis" ∈ known_issues d →
    5 ≤ psoriasis_score d
    ∧ (condition_label r = "folliculitis"
       ∨ (folliculitis_score d < 5 ∧ condition_label r = "psoriasis"))
    ∧ referral_required r = true
    ∧ 7 ≤ severity_score r ≤ 8.
Proof.
  intros data d r Hknown.
  assert (Hk : known_psoriasis d = true) by by apply bool_decide_eq_true.
  assert (Hscore : 5 ≤ psoriasis_score d).
  { unfold psoriasis_score. rewrite Hk. split_bumps; lia. }
  split; [done|].
  destruct (classify_policy data) as (l & Hl & Hr & Hs).
  fold d in Hr, Hs. fold r in Hl, Hr, Hs.
  pose proof (classify_label_first_clearing data) as Hfirst.
  fold r d in Hfirst. rewrite Hl in Hfirst.
  apply ConditionLabel_value_inj in Hfirst.
  assert (Hcases : (l = FOLLICULITIS)
                   ∨ (folliculitis_score d < 5 ∧ l = PSORIASIS)).
  { rewrite Hfirst. unfold first_clearing, rule_specs. cbn [List.find].
    unfold clears. cbn [rule_threshold rule_score].
    destruct (Z.leb_spec 5 (folliculitis_score d)); [by left|].
    apply Z.leb_le in Hscore. rewrite Hscore. by right. }
  rewrite Hl, Hr, Hs. clear Hl Hr Hs Hfirst.
  generalize (severe_symptoms d || hair_loss_with_pain d) as trigger.
  generalize (known_chronic_condition d) as chronic.
  generalize (severe_symptoms d) as severe.
  generalize (hair_loss_with_pain d) as loss.
  intros loss severe chronic trigger.
  destruct Hcases as [-> | [Hlt ->]];
    cbn [base_policy fst snd ConditionLabel_value orb];
    (split; [by (left + right)|]); (split; [done|]);
    destruct trigger; lia.
Qed.

(** A request with a psoriasis history and no matching symptom. *)
Lemma known_psoriasis_decides_witness :
  let r := classify (request ["hair_loss"] "none" "weekly" [] ["psoriasis"]) in
  condition_label r = "psoriasis" ∧ referral_required r = true.
Proof.
  pose proof (known_psoriasis_decides
                (request ["hair_loss"] "none" "weekly" [] ["psoriasis"])) as H.
  cbv zeta in H. destruct H as (_ & Hl & Hr & _); [decide_by_eval|].
  split; [|exact Hr].
  destruct Hl as [Hl | [_ Hl]]; [|exact Hl].
  exfalso. clear -Hl. vm_compute in Hl. discriminate Hl.
Defined.

(** X6. A bump token (bumps, pustules, pimples, small_bumps,
    infected_bumps) together with a pain token (pain, painful, tenderness,
    tender, sore, soreness) always gives folliculitis, a referral of severity
    8 with care plan CP-002, whatever else the request says. *)
Theorem bumps_and_pain_is_folliculitis :
  ∀ data,
    let d := _parse_input data in
    let r := classify data in
    (∃ t, t ∈ ["bumps"; "pustules"; "pimples"; "small_bumps"; "infected_bumps"]
          ∧ t ∈ symptoms d) →
    (∃ t, t ∈ ["pain"; "painful"; "tenderness"; "tender"; "sore"; "soreness"]
          ∧ t ∈ symptoms d) →
    condition_label r = "folliculitis" ∧ care_plan_id r = "CP-002"
    ∧ referral_required r = true ∧ severity_score r = 8.
Proof.
  intros data d r Hbumps Hpain.
  assert (Hb : folliculitis_has_bumps d = true) by by apply any_in_true.
  assert (Hp : folliculitis_has_pain d = true) by by apply any_in_true.
  assert (Hbase : ∃ conf text,
    _run_decision_tree d
    = {| condition_label := "folliculitis"; care_plan_id := "CP-002";
         referral_required := true; confidence_level := conf;
         reasoning := text; severity_score := 8 |}).
  { unfold _run_decision_tree, rule_chain. cbn [first_match].
    unfold _check_folliculitis at 1.
    assert (Hs : (5 <=? folliculitis_score d) = true).
    { apply Z.leb_le. unfold folliculitis_score. rewrite Hb, Hp.
      split_bumps; lia. }
    rewrite Hs. by eexists _, _. }
  destruct Hbase as (conf & text & Hbase).
  subst r. rewrite classify_unfold. fold d.
  destruct (apply_referral_rules_keeps (_run_decision_tree d) d)
    as (Hl & Hc & _).
  destruct (apply_referral_rules_exact (_run_decision_tree d) d)
    as (Hr & Hs & _).
  rewrite Hl, Hc, Hr, Hs, Hbase.
  cbn [condition_label care_plan_id referral_required severity_score orb].
  repeat split.
  by destruct (severe_symptoms d || hair_loss_with_pain d).
Qed.

Lemma bumps_and_pain_is_folliculitis_witness :
  let r := classify (request ["pimples"; "sore"; "dryness"]
                             "none" "monthly" ["gel"] ["psoriasis"]) in
  condition_label r = "folliculitis" ∧ severity_score r = 8.
Proof.
  pose proof (bumps_and_pain_is_folliculitis
                (request ["pimples"; "sore"; "dryness"]
                         "none" "monthly" ["gel"] ["psoriasis"])) as H.
  cbv zeta in H. destruct H as (Hl & _ & _ & Hs).
  - exists "pimples". split; decide_by_eval.
  - exists "sore". split; decide_by_eval.
  - split; [exact Hl | exact Hs].
Defined.

Lemma any_in_nil tokens : any_in tokens [] = false.
Proof.
  induction tokens as [|t tokens IH]; [done|].
  rewrite any_in_cons, IH, orb_false_r.
  apply bool_decide_eq_false, not_elem_of_nil.
Qed.

(** X7. A request without symptoms (a missing key or an empty list) is still
    classified from its other fields: psoriasis with a psoriasis history;
    otherwise product_buildup with a heavy product, a low wash frequency and
    three or more products; otherwise dry_scalp with a low wash frequency
    and no product containing "oil"; otherwise unclear.  No other label is
    possible. *)
Theorem no_symptoms_classification :
  ∀ data,
    let d := _parse_input data in
    default [] (get_symptoms data) = [] →
    condition_label (classify data)
    = ConditionLabel_value
        (if known_psoriasis d then PSORIASIS
         else if uses_heavy_products d && low_wash d && multiple_products d
              then PRODUCT_BUILDUP
         else if low_wash d && negb (uses_oil d) then DRY_SCALP
         else UNCLEAR).
Proof.
  intros data d Hraw.
  assert (Hsyms : symptoms d = []).
  { subst d. unfold _parse_input. cbn [symptoms]. by rewrite Hraw. }
  rewrite classify_label_first_clearing. fold d. f_equal.
  assert (Hmem : ∀ t : string, bool_decide (t ∈ symptoms d) = false).
  { intros t. rewrite Hsyms. apply bool_decide_eq_false, not_elem_of_nil. }
  assert (Hmin : minimal_symptoms d = true).
  { unfold minimal_symptoms. by rewrite Hsyms. }
  unfold first_clearing, rule_specs. cbn [List.find]. unfold clears.
  cbn [rule_threshold rule_score rule_label].
  unfold folliculitis_score, psoriasis_score, tension_score, seborrheic_score,
    contact_score, acne_score, buildup_score, dry_score.
  unfold folliculitis_has_bumps, folliculitis_has_pain,
    folliculitis_has_inflammation, psoriasis_has_scales,
    psoriasis_has_dryness, psoriasis_has_itching, tension_has_tenderness,
    tension_has_hair_loss, tension_has_bumps, seborrheic_has_itching,
    seborrheic_has_flaking, seborrheic_has_oily, seborrheic_has_redness,
    contact_has_itching, contact_has_redness, contact_has_bumps,
    recent_change, acne_has_bumps, acne_has_oily, no_pain,
    buildup_has_flaking, buildup_has_itching, dry_has_dryness.
  rewrite Hmin, !Hmem. rewrite Hsyms, !any_in_nil.
  unfold not_protective_style, has_protective_style.
  destruct (decide (style_type d ∈ PROTECTIVE_STYLES)) as [Hprot | Hprot].
  - rewrite (bool_decide_eq_true_2 _ Hprot).
    rewrite (bool_decide_eq_false_2 (style_type d ∉ PROTECTIVE_STYLES))
      by (intros Hn; by apply Hn).
    destruct (known_psoriasis d), (uses_heavy_products d), (low_wash d),
      (multiple_products d), (uses_oil d); reflexivity.
  - rewrite (bool_decide_eq_false_2 _ Hprot).
    rewrite (bool_decide_eq_true_2 (style_type d ∉ PROTECTIVE_STYLES)) by done.
    destruct (known_psoriasis d), (uses_heavy_products d), (low_wash d),
      (multiple_products d), (uses_oil d); reflexivity.
Qed.

(** No symptoms key at all, monthly washes and no product: dry_scalp. *)
Lemma no_symptoms_classification_witness :
  condition_label
    (classify {| get_symptoms := None; get_style_type := Some "none";
                 get_wash_frequency := Some "monthly";
                 get_product_use := None; get_known_issues := None;
                 get_image_uploaded := None |})
  = "dry_scalp".
Proof.
  rewrite (no_symptoms_classification
             {| get_symptoms := None; get_style_type := Some "none";
                get_wash_frequency := Some "monthly";
                get_product_use := None; get_known_issues := None;
                get_image_uploaded := None |}); [|reflexivity].
  vm_compute. reflexivity.
Defined.

Lemma unclear_no_rule_clears data :
  condition_label (classify data) = "unclear" →
  ∀ sp, sp ∈ rule_specs →
        rule_score sp (_parse_input data) < rule_threshold sp.
Proof.
  rewrite classify_label_first_clearing. intros Hlabel sp Hin.
  destruct (first_clearing (_parse_input data)) as [sp'|] eqn:Hfirst.
  - apply first_clearing_spec in Hfirst as [Hin' Hthr]. cbn in Hlabel.
    destruct (rule_confidence_not_low _ sp' Hin' Hthr) as [_ Hne]. done.
  - apply list_elem_of_In in Hin.
    pose proof (find_none _ _ Hfirst sp Hin) as Hc.
    by apply Z.leb_gt in Hc.
Qed.

(** X8. The dry-scalp rule closes the chain for two kinds of request, which
    therefore never fall to the unclear fallback: those with one of the
    symptoms dryness, dry, tight, flaking, and those with a low wash
    frequency, no product containing "oil" and at most two symptoms. *)
Theorem dry_scalp_catches :
  ∀ data,
    let d := _parse_input data in
    (∃ t, t ∈ ["dryness"; "dry"; "tight"; "flaking"] ∧ t ∈ symptoms d)
    ∨ (wash_frequency d ∈ LOW_WASH_FREQUENCIES
       ∧ (∀ p, p ∈ product_use d → str_contains "oil" p = false)
       ∧ (length (symptoms d) ≤ 2)%nat) →
    condition_label (classify data) ≠ "unclear".
Proof.
  intros data d Hcase Hunclear.
  pose proof (unclear_no_rule_clears data Hunclear
                {| rule_check := _check_dry_scalp; rule_label := DRY_SCALP;
                   rule_score := dry_score; rule_threshold := 3;
                   rule_max_score := None |}) as Hdry.
  cbn [rule_score rule_threshold] in Hdry. fold d in Hdry.
  assert (dry_score d < 3) as Hlt
    by (apply Hdry; unfold rule_specs; do 7 right; left).
  clear Hdry. assert (3 ≤ dry_score d); [|lia].
  unfold dry_score. destruct Hcase as [Hdryness | (Hwash & Hoil & Hlen)].
  - assert (dry_has_dryness d = true) as -> by by apply any_in_true.
    split_bumps; lia.
  - assert (low_wash d = true) as -> by by apply bool_decide_eq_true.
    assert (uses_oil d = false) as ->.
    { unfold uses_oil. apply not_true_is_false. intros Hex.
      apply existsb_exists in Hex as (p & Hp & Hyes).
      apply list_elem_of_In in Hp. apply Hoil in Hp. congruence. }
    assert (minimal_symptoms d = true) as ->.
    { unfold minimal_symptoms, len. apply Z.leb_le. lia. }
    split_bumps; lia.
Qed.

Lemma dry_scalp_catches_witness :
  condition_label
    (classify (request ["numbness"; "tight"; "tingling"] "braids" "daily" [] []))
  ≠ "unclear".
Proof.
  apply (dry_scalp_catches
           (request ["numbness"; "tight"; "tingling"] "braids" "daily" [] [])).
  left. exists "tight". split; decide_by_eval.
Defined.

(** ** Fields the engine does not read, or reads as a set *)

(** X9. The image_uploaded flag is never read: changing it, or leaving it
    out, does not change the result. *)
Theorem image_uploaded_ignored :
  ∀ data flag, classify (with_image_uploaded data flag) = classify data.
Proof.
  intros data flag. apply classify_agree. by split.
Qed.

(** X10. The known issues are read as a set, and only through the four
    tokens psoriasis, eczema, lupus, autoimmune: replacing them by any
    sequence that holds the same ones of these four tokens (after
    normalization) leaves the result unchanged.  Unlike symptoms and
    products, their number plays no role. *)
Theorem known_issues_as_set :
  ∀ data (issues' : list string),
    (∀ t, t ∈ ["psoriasis"; "eczema"; "lupus"; "autoimmune"] →
          t ∈ map normalize (default [] (get_known_issues data))
          ↔ t ∈ map normalize issues') →
    classify (with_known_issues data issues') = classify data.
Proof.
  intros data issues' H. apply classify_agree.
  split; try done.
  intros t Ht. symmetry. by apply H.
Qed.

Lemma known_issues_as_set_witness :
  let data := request ["itching"; "redness"; "rash"] "natural" "weekly" []
                      ["eczema"] in
  classify (with_known_issues data
              ["Asthma"; " ECZEMA"; "eczema"; "diabetes"; "hay_fever"])
  = classify data.
Proof.
  cbv zeta.
  apply (known_issues_as_set
           (request ["itching"; "redness"; "rash"] "natural" "weekly" []
                    ["eczema"])).
  intros t Ht.
  repeat (apply elem_of_cons in Ht as [-> | Ht]); [..| inversion Ht];
    split; intros H; first [decide_by_eval | exfalso; clear -H; revert H;
    apply (bool_decide_unpack _); vm_compute; exact I].
Defined.

(** ** Normalization *)

Lemma lower_char_idem c : lower_char (lower_char c) = lower_char c.
Proof. destruct c as [[] [] [] [] [] [] [] []]; reflexivity. Qed.

Lemma is_space_lower_char c : is_space (lower_char c) = is_space c.
Proof. destruct c as [[] [] [] [] [] [] [] []]; reflexivity. Qed.

Lemma str_lower_chars s :
  list_ascii_of_string (str_lower s)
  = map lower_char (list_ascii_of_string s).
Proof. induction s as [|c s IH]; [done|]. cbn. by rewrite IH. Qed.

Lemma str_lower_of_chars l :
  str_lower (string_of_list_ascii l) = string_of_list_ascii (map lower_char l).
Proof. induction l as [|c l IH]; [done|]. cbn. by rewrite IH. Qed.

Lemma str_lower_idem s : str_lower (str_lower s) = str_lower s.
Proof.
  induction s as [|c s IH]; [done|]. cbn. by rewrite lower_char_idem, IH.
Qed.

Lemma lstrip_chars_lower l :
  lstrip_chars (map lower_char l) = map lower_char (lstrip_chars l).
Proof.
  induction l as [|c l IH]; [done|]. cbn. rewrite is_space_lower_char.
  by destruct (is_space c).
Qed.

(** Lower-casing and stripping commute. *)
Lemma str_lower_strip s : str_lower (str_strip s) = str_strip (str_lower s).
Proof.
  unfold str_strip.
  rewrite str_lower_of_chars, str_lower_chars.
  by rewrite lstrip_chars_lower, <- map_rev, lstrip_chars_lower, <- map_rev.
Qed.

Lemma lstrip_chars_clean l : starts_clean (lstrip_chars l).
Proof.
  induction l as [|c l IH]; [done|]. cbn.
  by destruct (is_space c) eqn:E.
Qed.

Lemma lstrip_chars_id l : starts_clean l → lstrip_chars l = l.
Proof. destruct l as [|c l]; [done|]. cbn. by intros ->. Qed.

Lemma lstrip_chars_suffix l : ∃ ws, l = (ws ++ lstrip_chars l)%list.
Proof.
  induction l as [|c l [ws IH]]; [by exists []|]. cbn.
  destruct (is_space c); [|by exists []].
  exists (c :: ws). cbn. by rewrite <- IH.
Qed.

Lemma rstrip_chars_clean l :
  starts_clean l → starts_clean (rev (lstrip_chars (rev l))).
Proof.
  intros Hl. destruct (lstrip_chars_suffix (rev l)) as [ws Hws].
  apply (f_equal (@rev ascii)) in Hws.
  rewrite rev_involutive, rev_app_distr in Hws.
  destruct (rev (lstrip_chars (rev l))) as [|c x]; [done|].
  rewrite Hws in Hl. exact Hl.
Qed.

Lemma strip_chars_idem l :
  let x := rev (lstrip_chars (rev (lstrip_chars l))) in
  rev (lstrip_chars (rev (lstrip_chars x))) = x.
Proof.
  intros x.
  assert (Hx : starts_clean x)
    by apply rstrip_chars_clean, lstrip_chars_clean.
  rewrite (lstrip_chars_id x Hx).
  assert (Hrev : rev x = lstrip_chars (rev (lstrip_chars l)))
    by (subst x; apply rev_involutive).
  rewrite Hrev, (lstrip_chars_id _ (lstrip_chars_clean _)).
  by rewrite <- Hrev, rev_involutive.
Qed.

Lemma str_strip_idem s : str_strip (str_strip s) = str_strip s.
Proof.
  unfold str_strip. rewrite list_ascii_of_string_of_list_ascii.
  f_equal. apply strip_chars_idem.
Qed.

Lemma normalize_idem s : normalize (normalize s) = normalize s.
Proof.
  unfold normalize.
  by rewrite str_lower_strip, str_lower_idem, str_strip_idem.
Qed.

Lemma map_normalize_idem l : map normalize (map normalize l) = map normalize l.
Proof.
  rewrite map_map. apply map_ext. intros s. apply normalize_idem.
Qed.

(** X11. Normalization is a projection: a normalized token is already
    lower-case and already stripped, normalizing it again changes nothing,
    and a request that carries the fields of a parsed input is parsed to that
    same input and classified like the original request. *)
Theorem normalization_is_projection :
  (∀ s, str_lower (normalize s) = normalize s
        ∧ str_strip (normalize s) = normalize s
        ∧ normalize (normalize s) = normalize s)
  ∧ (∀ data, _parse_input (to_dict (_parse_input data)) = _parse_input data)
  ∧ (∀ data, classify (to_dict (_parse_input data)) = classify data).
Proof.
  assert (Hparse : ∀ data,
    _parse_input (to_dict (_parse_input data)) = _parse_input data).
  { intros data. unfold _parse_input, to_dict.
    cbn [get_symptoms get_style_type get_wash_frequency get_product_use
         get_known_issues get_image_uploaded symptoms style_type
         wash_frequency product_use known_issues image_uploaded
         default from_option id].
    by rewrite !map_normalize_idem, !normalize_idem. }
  split; [|split; [exact Hparse|]].
  - intros s. split; [|split].
    + unfold normalize. by rewrite str_lower_strip, str_lower_idem.
    + unfold normalize. apply str_strip_idem.
    + apply normalize_idem.
  - intros data. unfold classify. by rewrite Hparse.
Qed.

(** * Properties of the HTTP layer *)

(** ** The vocabularies against the engine *)



(** ** The conditions table against the engine *)

Lemma classify_care_plan data :
  ∃ l, condition_label (classify data) = ConditionLabel_value l
       ∧ care_plan_id (classify data) = CARE_PLANS l.
Proof.
  destruct (classify_base data) as (-> & -> & _).
  apply run_decision_tree_shape.
Qed.

(** The entry of each label but the fallback: its care plan is the one of
    [CARE_PLANS], and it is marked as typically referred exactly for the
    three rules that always refer. *)
Lemma condition_info_label l :
  l ≠ UNCLEAR →
  info_care_plan_id <$> condition_info (ConditionLabel_value l)
  = Some (CARE_PLANS l)
  ∧ typically_requires_referral <$> condition_info (ConditionLabel_value l)
    = Some (match l with
            | FOLLICULITIS | PSORIASIS | TENSION_DAMAGE => true
            | _ => false
            end).
Proof.
  destruct l; intros Hne; first [by destruct Hne | split; vm_compute; reflexivity].
Qed.

(** X13. The [conditions] table of [list_conditions] has one entry for each
    label but the fallback (eight entries, none for unclear).  For every
    result of [classify] that is not unclear the entry of its label carries
    the care plan of the result; where the entry says that the condition
    typically requires a referral the result is a referral; and a referred
    result whose entry says otherwise comes from the override (a severe
    trigger, hair loss with pain, or a known chronic condition). *)
Theorem conditions_match_engine :
  map fst conditions
  = map ConditionLabel_value
      [ SEBORRHEIC_DERMATITIS; FOLLICULITIS; PSORIASIS; SCALP_ACNE;
        TENSION_DAMAGE; PRODUCT_BUILDUP; DRY_SCALP; CONTACT_DERMATITIS ]
  ∧ total_count = 8
  ∧ condition_info "unclear" = None
  ∧ (∀ data,
       let d := _parse_input data in
       let r := classify data in
       condition_label r ≠ "unclear" →
       ∃ info,
         condition_info (condition_label r) = Some info
         ∧ info_care_plan_id info = care_plan_id r
         ∧ (typically_requires_referral info = true →
            referral_required r = true)
         ∧ (referral_required r = true →
            typically_requires_referral info = true
            ∨ severe_symptoms d || hair_loss_with_pain d
              || known_chronic_condition d = true)).
Proof.
  split; [reflexivity|]. split; [reflexivity|]. split; [reflexivity|].
  intros data d r Hlabel.
  destruct (classify_policy data) as (l & Hl & Hr & _).
  destruct (classify_care_plan data) as (l' & Hl' & Hp).
  fold d in Hr. fold r in Hl, Hr, Hl', Hp.
  assert (l' = l) as ->
    by (apply ConditionLabel_value_inj; congruence).
  assert (Hne : l ≠ UNCLEAR) by (intros ->; by apply Hlabel).
  destruct (condition_info_label l Hne) as [Hplan Htyp].
  rewrite Hl, Hr, Hp. clear Hl Hr Hp Hl' Hlabel.
  destruct (condition_info (ConditionLabel_value l)) as [info|];
    [|discriminate Hplan].
  cbn [fmap option_fmap option_map] in Hplan, Htyp.
  injection Hplan as Hplan. injection Htyp as Htyp.
  exists info. split; [reflexivity|]. split; [exact Hplan|].
  rewrite Htyp. clear Hplan Htyp info.
  pose proof (seborrheic_needs_referral_override d) as Hseb.
  revert Hseb.
  destruct l; try (by destruct Hne); cbn [base_policy fst];
    destruct (seborrheic_needs_referral d), (severe_symptoms d),
      (hair_loss_with_pain d), (known_chronic_condition d);
    cbn [orb]; intros Hseb; (split; intros H);
    first [ reflexivity | discriminate H | left; reflexivity
          | right; reflexivity
          | specialize (Hseb eq_refl); discriminate Hseb ].
Qed.

Lemma conditions_match_engine_witness :
  let r := classify (request ["bumps"; "pain"] "braids" "weekly" [] []) in
  ∃ info, condition_info (condition_label r) = Some info
          ∧ info_care_plan_id info = care_plan_id r
          ∧ typically_requires_referral info = true.
Proof.
  destruct (proj2 (proj2 (proj2 conditions_match_engine))
              (request ["bumps"; "pain"] "braids" "weekly" [] []))
    as (info & Hinfo & Hplan & _).
  - vm_compute. discriminate.
  - exists info. split; [exact Hinfo|]. split; [exact Hplan|].
    clear Hplan. vm_compute in Hinfo.
    injection Hinfo as <-. reflexivity.
Defined.

(** ** The request validation of the triage endpoint *)

Lemma obj_get_nonempty key members v :
  obj_get key members = Some v → members ≠ [].
Proof. by destruct members. Qed.

Lemma py_lower_Some v s :
  py_lower v = Some s → ∃ raw, v = JString raw ∧ s = str_lower raw.
Proof. destruct v; try discriminate. intros [= <-]. eauto. Qed.

Section Decorator.
Context (join_set : gset string → string) (f : json → outcome Response).

(** The requests that reach the view. *)
Lemma decorator_passes members first rest style wash :
  obj_get "symptoms" members = Some (JArray (first :: rest)) →
  obj_get "style_type" members = Some (JString style) →
  str_lower style ∈ VALID_STYLE_TYPES →
  obj_get "wash_frequency" members = Some (JString wash) →
  str_lower wash ∈ VALID_WASH_FREQUENCIES →
  validate_triage_input join_set f (JObject members) = f (JObject members).
Proof.
  intros Hsyms Hstyle Hvs Hwash Hvw.
  unfold validate_triage_input.
  assert (Htruthy : truthy (JObject members) = true).
  { cbn. apply negb_true_iff, bool_decide_eq_false.
    by eapply obj_get_nonempty. }
  rewrite Htruthy. cbn [negb].
  unfold required, missing_fields, py_contains.
  rewrite Hsyms, Hstyle, Hwash.
  rewrite !(bool_decide_eq_true_2 (is_Some (Some _))) by eauto.
  cbn [mbind option_bind]. unfold py_index. rewrite Hstyle, Hwash.
  cbn [mbind option_bind py_lower].
  rewrite (bool_decide_eq_false_2 (str_lower style ∉ VALID_STYLE_TYPES))
    by (intros Hn; by apply Hn).
  by rewrite (bool_decide_eq_false_2 (str_lower wash ∉ VALID_WASH_FREQUENCIES))
    by (intros Hn; by apply Hn).
Qed.

(** The three ways the decorated function can end. *)
Lemma decorator_cases data :
  validate_triage_input join_set f data = Raises
  ∨ (∃ message,
       validate_triage_input join_set f data
       = Returns (error_response message 400))
  ∨ (∃ members first rest style wash,
       data = JObject members
       ∧ obj_get "symptoms" members = Some (JArray (first :: rest))
       ∧ obj_get "style_type" members = Some (JString style)
       ∧ str_lower style ∈ VALID_STYLE_TYPES
       ∧ obj_get "wash_frequency" members = Some (JString wash)
       ∧ str_lower wash ∈ VALID_WASH_FREQUENCIES
       ∧ validate_triage_input join_set f data = f data).
Proof.
  unfold validate_triage_input.
  destruct (truthy data); cbn [negb]; [|right; left; eauto].
  destruct (missing_fields required data) as [[|field others]|];
    [| right; left; eauto | by left].
  destruct data as [| | | |items|members]; try by left.
  destruct (obj_get "symptoms" members) as [[| | | |[|first rest]|]|] eqn:Hsyms;
    try (right; left; eauto; fail).
  unfold py_index.
  destruct (obj_get "style_type" members) as [vstyle|] eqn:Hstyle;
    cbn [mbind option_bind]; [|by left].
  destruct (py_lower vstyle) as [style|] eqn:Hls; [|by left].
  apply py_lower_Some in Hls as (rawstyle & -> & ->).
  case_bool_decide as Hvs; [right; left; eauto|].
  destruct (obj_get "wash_frequency" members) as [vwash|] eqn:Hwash;
    cbn [mbind option_bind]; [|by left].
  destruct (py_lower vwash) as [wash|] eqn:Hlw; [|by left].
  apply py_lower_Some in Hlw as (rawwash & -> & ->).
  case_bool_decide as Hvw; [right; left; eauto|].
  right; right. exists members, first, rest, rawstyle, rawwash.
  repeat split; try done; by apply dec_stable.
Qed.

End Decorator.

(** X14. The decorator of the triage endpoint hands a request to the view
    exactly when the body is an object whose symptoms are a non-empty array
    and whose style_type and wash_frequency are strings that are, once
    lower-cased, in the two vocabularies.  Every other body ends in a 400
    response or in an exception; the decorator itself never answers with
    another status. *)
Theorem validate_triage_input_contract :
  ∀ join_set f data,
    (∀ members first rest style wash,
       data = JObject members →
       obj_get "symptoms" members = Some (JArray (first :: rest)) →
       obj_get "style_type" members = Some (JString style) →
       str_lower style ∈ VALID_STYLE_TYPES →
       obj_get "wash_frequency" members = Some (JString wash) →
       str_lower wash ∈ VALID_WASH_FREQUENCIES →
       validate_triage_input join_set f data = f data)
    ∧ (validate_triage_input join_set f data = Raises
       ∨ (∃ message,
            validate_triage_input join_set f data
            = Returns (error_response message 400))
       ∨ (∃ members first rest style wash,
            data = JObject members
            ∧ obj_get "symptoms" members = Some (JArray (first :: rest))
            ∧ obj_get "style_type" members = Some (JString style)
            ∧ str_lower style ∈ VALID_STYLE_TYPES
            ∧ obj_get "wash_frequency" members = Some (JString wash)
            ∧ str_lower wash ∈ VALID_WASH_FREQUENCIES
            ∧ validate_triage_input join_set f data = f data)).
Proof.
  intros join_set f data. split.
  - intros members first rest style wash ->. apply decorator_passes.
  - apply decorator_cases.
Qed.

Lemma validate_triage_input_contract_witness :
  validate_triage_input (λ _, EmptyString) (λ _, Raises) documented_request
  = Raises.
Proof.
  apply (proj1 (validate_triage_input_contract
                  (λ _, EmptyString) (λ _, Raises) documented_request)
           documented_members (JString "itching") [JString "flaking"]
           "Braids" "weekly").
  - reflexivity.
  - reflexivity.
  - reflexivity.
  - decide_by_eval.
  - reflexivity.
  - decide_by_eval.
Defined.

(** ** The triage endpoint *)

Lemma valid_token_stripped t :
  t ∈ VALID_SYMPTOMS ∪ VALID_STYLE_TYPES ∪ VALID_WASH_FREQUENCIES
      ∪ VALID_PRODUCTS →
  str_strip t = t.
Proof.
  revert t.
  apply (bool_decide_unpack
           (set_Forall (λ t, str_strip t = t)
              (VALID_SYMPTOMS ∪ VALID_STYLE_TYPES ∪ VALID_WASH_FREQUENCIES
               ∪ VALID_PRODUCTS))).
  vm_compute. exact I.
Qed.

(** A token whose lower-case form is in a vocabulary is normalized to that
    form. *)
Lemma normalize_valid raw :
  str_lower raw ∈ VALID_SYMPTOMS ∪ VALID_STYLE_TYPES ∪ VALID_WASH_FREQUENCIES
                  ∪ VALID_PRODUCTS →
  normalize raw = str_lower raw.
Proof. apply valid_token_stripped. Qed.

Lemma mapM_as_string_nonempty first rest tokens :
  mapM as_string (first :: rest) = Some tokens → tokens ≠ [].
Proof.
  intros H Hnil. apply length_mapM in H. rewrite Hnil in H. discriminate H.
Qed.

Lemma py_strings_array items :
  py_strings (JArray items) = mapM as_string items.
Proof. reflexivity. Qed.

(** What [_parse_input] makes of a body that passed the decorator. *)
Lemma to_input_dict_accepted members first rest style wash input :
  obj_get "symptoms" members = Some (JArray (first :: rest)) →
  obj_get "style_type" members = Some (JString style) →
  obj_get "wash_frequency" members = Some (JString wash) →
  to_input_dict (JObject members) = Some input →
  ∃ tokens,
    mapM as_string (first :: rest) = Some tokens
    ∧ get_symptoms input = Some tokens
    ∧ get_style_type input = Some style
    ∧ get_wash_frequency input = Some wash.
Proof.
  intros Hsyms Hstyle Hwash. unfold to_input_dict.
  rewrite Hsyms, Hstyle, Hwash. cbn [from_option as_string].
  rewrite py_strings_array.
  destruct (mapM as_string (first :: rest)) as [tokens|];
    cbn [mbind option_bind]; [|discriminate].
  destruct (from_option py_strings (Some []) (obj_get "product_use" members));
    cbn [mbind option_bind]; [|discriminate].
  destruct (from_option py_strings (Some []) (obj_get "known_issues" members));
    cbn [mbind option_bind]; [|discriminate].
  intros [= <-]. by exists tokens.
Qed.

Section Triage.
Context (join_set : gset string → string) (utcnow_isoformat : string).

(** The four ways the routed view can end. *)
Lemma triage_cases data :
  triage join_set utcnow_isoformat data = Raises
  ∨ (∃ message,
       triage join_set utcnow_isoformat data
       = Returns (error_response message 400))
  ∨ triage join_set utcnow_isoformat data
    = Returns (error_response "Internal server error during classification"
                              500)
  ∨ (∃ input,
       to_input_dict data = Some input
       ∧ triage join_set utcnow_isoformat data
         = Returns {| body := TriageBody (classify input) "success"
                                utcnow_isoformat "1.0.0";
                      status_code := 200 |}
       ∧ symptoms (_parse_input input) ≠ []
       ∧ style_type (_parse_input input) ∈ VALID_STYLE_TYPES
       ∧ wash_frequency (_parse_input input) ∈ VALID_WASH_FREQUENCIES).
Proof.
  unfold triage.
  destruct (decorator_cases join_set (triage_view utcnow_isoformat) data)
    as [Hraise | [Hbad | Hpass]]; [by left | by right; left |].
  destruct Hpass as (members & first & rest & style & wash & -> & Hsyms
                     & Hstyle & Hvs & Hwash & Hvw & ->).
  right; right. unfold triage_view, classify_symptoms_json.
  destruct (to_input_dict (JObject members)) as [input|] eqn:Hinput;
    cbn [fmap option_fmap option_map]; [right | by left].
  exists input. split; [done|]. split; [done|].
  destruct (to_input_dict_accepted _ _ _ _ _ _ Hsyms Hstyle Hwash Hinput)
    as (tokens & Htokens & Hs & Hst & Hw).
  unfold _parse_input. cbn [symptoms style_type wash_frequency].
  rewrite Hs, Hst, Hw. cbn [default from_option id].
  split; [|split].
  - apply mapM_as_string_nonempty in Htokens.
    destruct tokens; [done | discriminate].
  - rewrite normalize_valid; [done|].
    apply elem_of_union; left. apply elem_of_union; left.
    apply elem_of_union; right. exact Hvs.
  - rewrite normalize_valid; [done|].
    apply elem_of_union; left. apply elem_of_union; right. exact Hvw.
Qed.

End Triage.

(** X15. The triage endpoint ends in one of four ways: an exception leaves
    it, or it answers 400 with an error, or 500 with the fixed internal
    error, or 200 with the record of [classify] for the parsed body, the
    status success and the API version.  In the last case the input that the
    engine sees has at least one symptom, and a style_type and a
    wash_frequency from the vocabularies. *)
Theorem triage_responses :
  ∀ join_set utcnow_isoformat data,
    triage join_set utcnow_isoformat data = Raises
    ∨ (∃ message,
         triage join_set utcnow_isoformat data
         = Returns (error_response message 400))
    ∨ triage join_set utcnow_isoformat data
      = Returns (error_response "Internal server error during classification"
                                500)
    ∨ (∃ input,
         to_input_dict data = Some input
         ∧ triage join_set utcnow_isoformat data
           = Returns {| body := TriageBody (classify input) "success"
                                  utcnow_isoformat "1.0.0";
                        status_code := 200 |}
         ∧ symptoms (_parse_input input) ≠ []
         ∧ style_type (_parse_input input) ∈ VALID_STYLE_TYPES
         ∧ wash_frequency (_parse_input input) ∈ VALID_WASH_FREQUENCIES).
Proof. exact triage_cases. Qed.

(** ** Ill-typed fields *)

Lemma py_lower_None v : as_string v = None → py_lower v = None.
Proof. by destruct v. Qed.

(** The decorator on a body that has the three required keys and a
    non-empty array of symptoms. *)
Lemma decorator_after_symptoms join_set f members first rest vstyle vwash :
  obj_get "symptoms" members = Some (JArray (first :: rest)) →
  obj_get "style_type" members = Some vstyle →
  obj_get "wash_frequency" members = Some vwash →
  validate_triage_input join_set f (JObject members)
  = match py_lower vstyle with
    | None => Raises
    | Some style =>
        if bool_decide (style ∉ VALID_STYLE_TYPES) then
          Returns (error_response
                     ("Invalid style_type. Must be one of: "
                      +:+ join_set VALID_STYLE_TYPES) 400)
        else
          match py_lower vwash with
          | None => Raises
          | Some wash =>
              if bool_decide (wash ∉ VALID_WASH_FREQUENCIES) then
                Returns (error_response
                           ("Invalid wash_frequency. Must be one of: "
                            +:+ join_set VALID_WASH_FREQUENCIES) 400)
              else f (JObject members)
          end
    end.
Proof.
  intros Hsyms Hstyle Hwash. unfold validate_triage_input.
  assert (Htruthy : truthy (JObject members) = true).
  { cbn. apply negb_true_iff, bool_decide_eq_false.
    by eapply obj_get_nonempty. }
  rewrite Htruthy. cbn [negb].
  unfold required, missing_fields, py_contains.
  rewrite Hsyms, Hstyle, Hwash.
  rewrite !(bool_decide_eq_true_2 (is_Some (Some _))) by eauto.
  cbn [mbind option_bind]. unfold py_index. rewrite Hstyle, Hwash.
  cbn [mbind option_bind]. reflexivity.
Qed.

(** X16. The [try] of the triage view does not cover the decorator.  A
    body with the three required keys and a non-empty array of symptoms
    whose style_type is not a string makes the decorator raise, and so does a
    wash_frequency that is not a string behind a valid style_type; but once
    the decorator has accepted the body, a symptom that is not a string, or a
    product_use or known_issues value that cannot be read as strings, is
    answered with the 500 response of the view. *)
Theorem ill_typed_fields :
  ∀ join_set utcnow_isoformat members first rest vstyle vwash,
    obj_get "symptoms" members = Some (JArray (first :: rest)) →
    obj_get "style_type" members = Some vstyle →
    obj_get "wash_frequency" members = Some vwash →
    (as_string vstyle = None →
     triage join_set utcnow_isoformat (JObject members) = Raises)
    ∧ (∀ style,
         vstyle = JString style → str_lower style ∈ VALID_STYLE_TYPES →
         as_string vwash = None →
         triage join_set utcnow_isoformat (JObject members) = Raises)
    ∧ (∀ style wash,
         vstyle = JString style → str_lower style ∈ VALID_STYLE_TYPES →
         vwash = JString wash → str_lower wash ∈ VALID_WASH_FREQUENCIES →
         mapM as_string (first :: rest) = None
         ∨ (∃ v, obj_get "product_use" members = Some v ∧ py_strings v = None)
         ∨ (∃ v, obj_get "known_issues" members = Some v
                 ∧ py_strings v = None) →
         triage join_set utcnow_isoformat (JObject members)
         = Returns (error_response
                      "Internal server error during classification" 500)).
Proof.
  intros join_set utcnow members first rest vstyle vwash Hsyms Hstyle Hwash.
  unfold triage.
  rewrite (decorator_after_symptoms _ _ _ _ _ _ _ Hsyms Hstyle Hwash).
  split; [|split].
  - intros Hs. by rewrite (py_lower_None _ Hs).
  - intros style -> Hvs Hw. cbn [py_lower].
    rewrite (bool_decide_eq_false_2 (str_lower style ∉ VALID_STYLE_TYPES))
      by (intros Hn; by apply Hn).
    by rewrite (py_lower_None _ Hw).
  - intros style wash -> Hvs -> Hvw Hbad. cbn [py_lower].
    rewrite (bool_decide_eq_false_2 (str_lower style ∉ VALID_STYLE_TYPES))
      by (intros Hn; by apply Hn).
    rewrite (bool_decide_eq_false_2 (str_lower wash ∉ VALID_WASH_FREQUENCIES))
      by (intros Hn; by apply Hn).
    unfold triage_view, classify_symptoms_json.
    assert (Hnone : to_input_dict (JObject members) = None); [|by rewrite Hnone].
    unfold to_input_dict. rewrite Hsyms, Hstyle, Hwash.
    cbn [from_option as_string]. rewrite py_strings_array.
    destruct Hbad as [-> | [(v & -> & Hv) | (v & -> & Hv)]];
      cbn [from_option mbind option_bind]; [done | |].
    + rewrite Hv. by destruct (mapM as_string (first :: rest)).
    + rewrite Hv. destruct (mapM as_string (first :: rest));
        cbn [mbind option_bind]; [|done].
      by destruct (from_option py_strings (Some [])
                     (obj_get "product_use" members)).
Qed.

Lemma ill_typed_fields_witness :
  triage (λ _, EmptyString) EmptyString
    (JObject [ ("symptoms", JArray [JString "itching"]);
               ("style_type", JNumber 5);
               ("wash_frequency", JString "weekly") ])
  = Raises
  ∧ triage (λ _, EmptyString) EmptyString
      (JObject [ ("symptoms", JArray [JNumber 1]);
                 ("style_type", JString "none");
                 ("wash_frequency", JString "weekly") ])
    = Returns (error_response "Internal server error during classification"
                              500).
Proof.
  split.
  - apply (proj1 (ill_typed_fields (λ _, EmptyString) EmptyString
                    [ ("symptoms", JArray [JString "itching"]);
                      ("style_type", JNumber 5);
                      ("wash_frequency", JString "weekly") ]
                    (JString "itching") [] (JNumber 5) (JString "weekly")
                    eq_refl eq_refl eq_refl)).
    reflexivity.
  - apply (proj2 (proj2 (ill_typed_fields (λ _, EmptyString) EmptyString
                    [ ("symptoms", JArray [JNumber 1]);
                      ("style_type", JString "none");
                      ("wash_frequency", JString "weekly") ]
                    (JNumber 1) [] (JString "none") (JString "weekly")
                    eq_refl eq_refl eq_refl)) "none" "weekly").
    + reflexivity.
    + decide_by_eval.
    + reflexivity.
    + decide_by_eval.
    + left. reflexivity.
Defined.

(** ** The validation endpoint against the triage endpoint *)

Lemma filter_nil_inv {A} (f : A → bool) l :
  List.filter f l = [] → ∀ x, x ∈ l → f x = false.
Proof.
  induction l as [|y l IH]; intros H x Hx; [by apply not_elem_of_nil in Hx|].
  cbn in H. destruct (f y) eqn:Hy; [discriminate H|].
  apply elem_of_cons in Hx as [-> | Hx]; [done | by apply IH].
Qed.

(** A list check that reports nothing: the value under the key, when there
    is one, is read as strings that are all in the vocabulary. *)
Lemma check_tokens_passed key vocabulary message members v :
  check_tokens key vocabulary message (JObject members) = Some None →
  obj_get key members = Some v →
  ∃ tokens, py_strings v = Some tokens
            ∧ ∀ t, t ∈ tokens → str_lower t ∈ vocabulary.
Proof.
  unfold check_tokens, py_contains, py_index. intros H Hv. rewrite Hv in H.
  rewrite (bool_decide_eq_true_2 (is_Some (Some v))) in H by eauto.
  cbn [mbind option_bind] in H. unfold unknown_tokens in H.
  destruct (py_strings v) as [tokens|]; cbn [mbind option_bind] in H;
    [|discriminate H].
  exists tokens. split; [done|]. intros t Ht.
  destruct (List.filter _ tokens) eqn:Hf; [|discriminate H].
  apply (filter_nil_inv _ _ Hf) in Ht.
  apply bool_decide_eq_false in Ht. by apply dec_stable.
Qed.

(** A scalar check that reports nothing. *)
Lemma check_token_passed join_set key vocabulary members v :
  check_token join_set key vocabulary (JObject members) = Some None →
  obj_get key members = Some v →
  ∃ raw, v = JString raw ∧ str_lower raw ∈ vocabulary.
Proof.
  unfold check_token, py_contains, py_index. intros H Hv. rewrite Hv in H.
  rewrite (bool_decide_eq_true_2 (is_Some (Some v))) in H by eauto.
  cbn [mbind option_bind] in H.
  destruct (py_lower v) as [lowered|] eqn:Hl; cbn [mbind option_bind] in H;
    [|discriminate H].
  apply py_lower_Some in Hl as (raw & -> & ->). exists raw. split; [done|].
  destruct (decide (str_lower raw ∈ vocabulary)) as [Hin | Hin]; [done|].
  rewrite (bool_decide_eq_true_2 _ Hin) in H. discriminate H.
Qed.

(** The answer "valid" of [validate_input]: all four checks passed. *)
Lemma validate_input_valid join_set data :
  validate_input join_set data
  = Returns {| body := ValidationBody true None "success";
               status_code := 200 |} →
  check_tokens "symptoms" VALID_SYMPTOMS
    (λ s, "'" +:+ s +:+ "' is not a recognized symptom") data = Some None
  ∧ check_token join_set "style_type" VALID_STYLE_TYPES data = Some None
  ∧ check_token join_set "wash_frequency" VALID_WASH_FREQUENCIES data
    = Some None
  ∧ check_tokens "product_use" VALID_PRODUCTS
      (λ p, "'" +:+ p +:+ "' is not recognized") data = Some None.
Proof.
  unfold validate_input, validation_errors.
  destruct (truthy data); cbn [negb]; [|discriminate].
  destruct (check_tokens "symptoms" _ _ data) as [syms|];
    cbn [mbind option_bind]; [|discriminate].
  destruct (check_token join_set "style_type" _ data) as [style|];
    cbn [mbind option_bind]; [|discriminate].
  destruct (check_token join_set "wash_frequency" _ data) as [wash|];
    cbn [mbind option_bind]; [|discriminate].
  destruct (check_tokens "product_use" _ _ data) as [products|];
    cbn [mbind option_bind]; [|discriminate].
  unfold no_errors. cbn [err_symptoms err_style_type err_wash_frequency
                         err_product_use].
  destruct syms, style, wash, products; cbn [negb]; intros [= ]; done.
Qed.

Lemma map_normalize_valid (vocabulary : gset string) tokens :
  vocabulary ⊆ VALID_SYMPTOMS ∪ VALID_STYLE_TYPES ∪ VALID_WASH_FREQUENCIES
               ∪ VALID_PRODUCTS →
  (∀ t, t ∈ tokens → str_lower t ∈ vocabulary) →
  ∀ t, t ∈ map normalize tokens → t ∈ vocabulary.
Proof.
  intros Hsub Hall t Ht.
  apply list_elem_of_In, in_map_iff in Ht as (raw & <- & Hraw).
  apply list_elem_of_In, Hall in Hraw.
  rewrite normalize_valid; [done | by apply Hsub].
Qed.

(** X17. If the validation endpoint answers that a body is valid, and the
    body is an object with the three required keys, a non-empty array of
    symptoms and known issues that can be read as strings (or none), then
    the triage endpoint answers 200 with the classification of that body,
    and every symptom and product that the engine sees is a vocabulary
    token. *)
Theorem valid_body_is_classified :
  ∀ join_set utcnow_isoformat members first rest,
    validate_input join_set (JObject members)
    = Returns {| body := ValidationBody true None "success";
                 status_code := 200 |} →
    obj_get "symptoms" members = Some (JArray (first :: rest)) →
    is_Some (obj_get "style_type" members) →
    is_Some (obj_get "wash_frequency" members) →
    (∀ v, obj_get "known_issues" members = Some v → is_Some (py_strings v)) →
    ∃ input,
      to_input_dict (JObject members) = Some input
      ∧ triage join_set utcnow_isoformat (JObject members)
        = Returns {| body := TriageBody (classify input) "success"
                               utcnow_isoformat "1.0.0";
                     status_code := 200 |}
      ∧ (∀ t, t ∈ symptoms (_parse_input input) → t ∈ VALID_SYMPTOMS)
      ∧ (∀ p, p ∈ product_use (_parse_input input) → p ∈ VALID_PRODUCTS).
Proof.
  intros join_set utcnow members first rest Hvalid Hsyms [vstyle Hstyle]
    [vwash Hwash] Hissues.
  apply validate_input_valid in Hvalid as (Hcs & Hcst & Hcw & Hcp).
  destruct (check_tokens_passed _ _ _ _ _ Hcs Hsyms) as (tokens & Htok & Htv).
  destruct (check_token_passed _ _ _ _ _ Hcst Hstyle) as (style & -> & Hvs).
  destruct (check_token_passed _ _ _ _ _ Hcw Hwash) as (wash & -> & Hvw).
  assert (Hprod : ∃ products,
    from_option py_strings (Some []) (obj_get "product_use" members)
    = Some products
    ∧ ∀ p, p ∈ products → str_lower p ∈ VALID_PRODUCTS).
  { destruct (obj_get "product_use" members) as [v|] eqn:Hp.
    - exact (check_tokens_passed _ _ _ _ _ Hcp Hp).
    - exists []. split; [done|]. intros p Hp'. by apply not_elem_of_nil in Hp'. }
  destruct Hprod as (products & Hprod & Hpv).
  assert (Hiss : ∃ issues,
    from_option py_strings (Some []) (obj_get "known_issues" members)
    = Some issues).
  { destruct (obj_get "known_issues" members) as [v|] eqn:Hi; [|by exists []].
    destruct (Hissues v eq_refl) as [issues Hi']. by exists issues. }
  destruct Hiss as (issues & Hiss).
  assert (Hinput : to_input_dict (JObject members)
    = Some {| get_symptoms := Some tokens;
              get_style_type := Some style;
              get_wash_frequency := Some wash;
              get_product_use := Some products;
              get_known_issues := Some issues;
              get_image_uploaded :=
                Some (from_option truthy false
                        (obj_get "image_uploaded" members)) |}).
  { unfold to_input_dict. rewrite Hsyms, Hstyle, Hwash, Hprod, Hiss.
    cbn [from_option as_string]. rewrite Htok. reflexivity. }
  eexists. split; [exact Hinput|]. split; [|split].
  - unfold triage.
    rewrite (decorator_passes _ _ _ _ _ _ _ Hsyms Hstyle Hvs Hwash Hvw).
    unfold triage_view, classify_symptoms_json. by rewrite Hinput.
  - unfold _parse_input. cbn [symptoms get_symptoms default from_option id].
    apply map_normalize_valid; [|done].
    intros t Ht. do 3 (apply elem_of_union; left). exact Ht.
  - unfold _parse_input.
    cbn [product_use get_product_use default from_option id].
    apply map_normalize_valid; [|done].
    intros t Ht. apply elem_of_union; right. exact Ht.
Qed.

Lemma valid_body_is_classified_witness :
  ∃ input,
    to_input_dict documented_request = Some input
    ∧ triage (λ _, EmptyString) "2026-01-30T22:00:00" documented_request
      = Returns {| body := TriageBody (classify input) "success"
                             "2026-01-30T22:00:00" "1.0.0";
                   status_code := 200 |}.
Proof.
  destruct (valid_body_is_classified (λ _, EmptyString) "2026-01-30T22:00:00"
              documented_members (JString "itching") [JString "flaking"])
    as (input & Hinput & Htriage & _).
  - vm_compute. reflexivity.
  - reflexivity.
  - by eexists.
  - by eexists.
  - intros v [= <-]. by eexists.
  - exists input. split; [exact Hinput | exact Htriage].
Defined.

(** ** Bodies that are not a non-empty object *)

Lemma array_lacks_key key items :
  JString key ∉ items →
  existsb (λ v, match v with
                | JString s => bool_decide (s = key)
                | _ => false
                end) items = false.
Proof.
  induction items as [|v items IH]; [done|]. intros Hnot.
  apply not_elem_of_cons in Hnot as [Hv Hrest]. cbn [existsb].
  rewrite (IH Hrest), orb_false_r.
  destruct v; try done. apply bool_decide_eq_false. congruence.
Qed.

(** A body in which none of the four keys is found is reported valid. *)
Lemma validate_input_no_key join_set data :
  truthy data = true →
  (∀ key, key ∈ ["symptoms"; "style_type"; "wash_frequency"; "product_use"] →
          py_contains key data = Some false) →
  validate_input join_set data
  = Returns {| body := ValidationBody true None "success";
               status_code := 200 |}.
Proof.
  intros Htruthy Hkeys. unfold validate_input, validation_errors.
  rewrite Htruthy. cbn [negb].
  unfold check_tokens, check_token.
  rewrite !Hkeys by decide_by_eval. reflexivity.
Qed.

(** X18. Bodies that are not a non-empty object.  A body that Python takes
    for false (null, false, zero, the empty string, the empty array and also
    the empty object) gets the 400 response "No JSON payload provided" from
    both endpoints.  A body that is not an object never reaches the
    classification of the triage endpoint.  The validation endpoint, which
    looks for its keys with [in], reports a non-empty array that does not
    hold one of the four key names, and a non-empty string that does not
    contain one, as valid. *)
Theorem bodies_that_are_not_objects :
  ∀ join_set utcnow_isoformat,
    Forall (λ data, truthy data = false)
      [ JNull; JBool false; JNumber 0; JString EmptyString; JArray [];
        JObject [] ]
    ∧ (∀ data,
         truthy data = false →
         triage join_set utcnow_isoformat data
         = Returns (error_response "No JSON payload provided" 400)
         ∧ validate_input join_set data
           = Returns {| body := ErrorBody "No JSON payload provided" None;
                        status_code := 400 |})
    ∧ (∀ data,
         (∀ members, data ≠ JObject members) →
         triage join_set utcnow_isoformat data = Raises
         ∨ ∃ message,
             triage join_set utcnow_isoformat data
             = Returns (error_response message 400))
    ∧ (∀ items,
         items ≠ [] →
         (∀ key,
            key ∈ ["symptoms"; "style_type"; "wash_frequency"; "product_use"] →
            JString key ∉ items) →
         validate_input join_set (JArray items)
         = Returns {| body := ValidationBody true None "success";
                      status_code := 200 |})
    ∧ (∀ text,
         text ≠ EmptyString →
         (∀ key,
            key ∈ ["symptoms"; "style_type"; "wash_frequency"; "product_use"] →
            str_contains key text = false) →
         validate_input join_set (JString text)
         = Returns {| body := ValidationBody true None "success";
                      status_code := 200 |}).
Proof.
  intros join_set utcnow. split; [|split; [|split; [|split]]].
  - repeat constructor.
  - intros data Hfalsy.
    unfold triage, validate_triage_input, validate_input.
    by rewrite Hfalsy.
  - intros data Hnot. unfold triage.
    destruct (decorator_cases join_set (triage_view utcnow) data)
      as [Hraise | [Hbad | Hpass]]; [by left | by right |].
    destruct Hpass as (members & _ & _ & _ & _ & -> & _).
    by destruct (Hnot members).
  - intros items Hne Hkeys. apply validate_input_no_key.
    + cbn. by apply negb_true_iff, bool_decide_eq_false.
    + intros key Hkey. cbn [py_contains].
      by rewrite (array_lacks_key _ _ (Hkeys key Hkey)).
  - intros text Hne Hkeys. apply validate_input_no_key.
    + cbn. by apply negb_true_iff, bool_decide_eq_false.
    + intros key Hkey. cbn [py_contains]. by rewrite (Hkeys key Hkey).
Qed.

Lemma bodies_that_are_not_objects_witness :
  triage (λ _, EmptyString) EmptyString (JObject [])
  = Returns (error_response "No JSON payload provided" 400)
  ∧ validate_input (λ _, EmptyString)
      (JArray [JString "itching"; JString "not_a_symptom"; JNumber 3])
    = Returns {| body := ValidationBody true None "success";
                 status_code := 200 |}.
Proof.
  pose proof (bodies_that_are_not_objects (λ _, EmptyString) EmptyString)
    as (_ & Hfalsy & _ & Harray & _).
  split.
  - apply Hfalsy. reflexivity.
  - apply Harray; [discriminate|].
    intros key Hkey Hin.
    repeat (apply elem_of_cons in Hkey as [-> | Hkey]); [..| inversion Hkey];
      repeat (apply elem_of_cons in Hin as [Heq | Hin]; [discriminate Heq|]);
      inversion Hin.
Defined.
